(** * checkConferenceAgenda: the conference-session dialog handler

    A shallow embedding of [checkConferenceAgenda.py] and the properties of
    its validator, session matcher, option builder and dialog controller.

    Modelling conventions.
    - Python [str] values are [string]s of ASCII characters; [None]-able
      values are [option]s.
    - A Python exception is the [Raise] alternative of [result].
    - The request object is the only mutable state: [book_session] runs in a
      state-and-exception monad over [IntentRequest], so that the slot
      dictionary it aliases and updates is the request's own.
    - The slot dictionary and the session attributes are [gmap]s.
    - [dateutil.parser.parse] is a third-party function; it is a parameter
      of the development ([dateutil_parse]). *)

From Stdlib Require Import ZArith Lia.
From Stdlib Require Import Strings.Ascii Strings.String.
From stdpp Require Import base option list sorting gmap strings.

(** ** Exceptions and results *)

(** The exceptions the handler can meet. [OutOfModel] marks the one source
    statement this embedding gives no value to ([slots[None] = None]);
    [book_session_in_model] shows it is never produced. *)
Inductive exn : Type :=
| KeyError
| ValueError
| TypeError
| OverflowError
| OutOfModel.

Inductive result (A : Type) : Type :=
| Ok (a : A)
| Raise (e : exn).
Arguments Ok {A} a.
Arguments Raise {A} e.

Definition res_bind {A B : Type} (r : result A) (k : A -> result B) : result B :=
  match r with
  | Ok a => k a
  | Raise e => Raise e
  end.

(** ** Python built-ins used by the handler *)
Module Py.

(** Truth value of an optional string: [None] and [''] are false. *)
Definition truthy (v : option string) : bool :=
  match v with
  | None => false
  | Some EmptyString => false
  | Some (String _ _) => true
  end.

(** [c.lower()] on one ASCII character. *)
Definition lower_ascii (c : ascii) : ascii :=
  let n := nat_of_ascii c in
  if (65 <=? n)%nat && (n <=? 90)%nat then ascii_of_nat (n + 32) else c.

(** [s.lower()]. *)
Fixpoint lower (s : string) : string :=
  match s with
  | EmptyString => EmptyString
  | String c r => String (lower_ascii c) (lower r)
  end.

(** [s.split(sep)] for a one-character separator: never an empty list. *)
Fixpoint split (sep : ascii) (s : string) : list string :=
  match s with
  | EmptyString => [EmptyString]
  | String c r =>
      if Ascii.eqb c sep then EmptyString :: split sep r
      else match split sep r with
           | p :: ps => String c p :: ps
           | [] => [String c EmptyString]
           end
  end.

(** [a > b] on strings is Python's code-point lexicographic order. *)
Definition str_gt (a b : string) : bool := String.ltb b a.

(** Whitespace that [int()] strips from an ASCII string: tab, line feed,
    vertical tab, form feed, carriage return and space. *)
Definition is_space (c : ascii) : bool :=
  let n := nat_of_ascii c in
  ((9 <=? n)%nat && (n <=? 13)%nat) || (n =? 32)%nat.

Fixpoint lstrip (s : string) : string :=
  match s with
  | EmptyString => EmptyString
  | String c r => if is_space c then lstrip r else s
  end.

Fixpoint rstrip (s : string) : string :=
  match s with
  | EmptyString => EmptyString
  | String c r =>
      match rstrip r with
      | EmptyString => if is_space c then EmptyString else String c EmptyString
      | r' => String c r'
      end
  end.

Definition strip (s : string) : string := rstrip (lstrip s).

Definition digit_val (c : ascii) : option Z :=
  let n := nat_of_ascii c in
  if (48 <=? n)%nat && (n <=? 57)%nat then Some (Z.of_nat (n - 48)) else None.

(** Decimal digits, single underscores allowed between two digits.
    [after_digit] tells whether the previous character was a digit. *)
Fixpoint digits (acc : Z) (after_digit : bool) (s : string) : option Z :=
  match s with
  | EmptyString => if after_digit then Some acc else None
  | String c r =>
      match digit_val c with
      | Some d => digits (10 * acc + d)%Z true r
      | None =>
          if Ascii.eqb c "_"%char && after_digit then
            match r with
            | EmptyString => None
            | String c' _ =>
                match digit_val c' with
                | Some _ => digits acc false r
                | None => None
                end
            end
          else None
      end
  end.

(** [int(s)] on a string, with Python 3's grammar: surrounding whitespace,
    an optional sign, digits. [None] stands for [ValueError]. *)
Definition int (s : string) : option Z :=
  match strip s with
  | String "+"%char r => digits 0 false r
  | String "-"%char r => Z.opp <$> digits 0 false r
  | body => digits 0 false body
  end.

(** A Python number as the handler sees it: an [int] or [float('nan')]. *)
Inductive num : Type :=
| Int (z : Z)
| NaN.

(** [math.isnan]. *)
Definition isnan (x : num) : bool :=
  match x with
  | NaN => true
  | Int _ => false
  end.

(** [x < k] and [x > k] against an integer literal; false on [NaN]. *)
Definition num_lt (x : num) (k : Z) : bool :=
  match x with
  | Int z => (z <? k)%Z
  | NaN => false
  end.

Definition num_gt (x : num) (k : Z) : bool :=
  match x with
  | Int z => (k <? z)%Z
  | NaN => false
  end.

End Py.

(** ** Data model *)

(** One agenda entry; [end_] is the source's ['end']. *)
Record Session : Type := mk_session {
  name : string;
  track : string;
  date : string;
  start : string;
  end_ : string
}.

(** [{'contentType': ..., 'content': ...}]. *)
Record Message : Type := mk_message {
  contentType : string;
  content : string
}.

(** A response-card button, [{'text': ..., 'value': ...}]. *)
Record Button : Type := mk_button {
  text : string;
  value : string
}.

Record Attachment : Type := mk_attachment {
  title : string;
  subTitle : string;
  buttons : option (list Button)
}.

Record ResponseCard : Type := mk_card {
  card_contentType : string;
  version : Z;
  genericAttachments : list Attachment
}.

(** The verdict dictionary of [build_validation_result]. [message] is [None]
    exactly when the dictionary has no ['message'] key. *)
Record ValidationResult : Type := mk_validation {
  isValid : bool;
  violatedSlot : option string;
  message : option Message
}.

(** The slot dictionary: slot name to optional value. *)
Abbreviation SlotSet := (gmap string (option string)).
Abbreviation Attrs := (gmap string string).

Record CurrentIntent : Type := mk_intent {
  intentName : string;
  slots : SlotSet;
  confirmationStatus : string
}.

Record IntentRequest : Type := mk_request {
  currentIntent : CurrentIntent;
  sessionAttributes : option Attrs;
  invocationSource : string;
  userId : string
}.

(** The ['dialogAction'] dictionary, by its ['type']. *)
Inductive DialogAction : Type :=
| ElicitSlot (intent_name : string) (slot_set : SlotSet) (slotToElicit : string)
    (msg : option Message) (responseCard : option ResponseCard)
| ConfirmIntent (intent_name : string) (slot_set : SlotSet)
    (msg : option Message) (responseCard : option ResponseCard)
| Close (fulfillmentState : string)
    (msg : option Message) (responseCard : option ResponseCard)
| Delegate (slot_set : SlotSet).

Record Response : Type := mk_response {
  out_sessionAttributes : option Attrs;
  dialogAction : DialogAction
}.

(** A calendar date and a [datetime], as [dateutil] returns it. *)
Record cal_date : Type := mk_date {
  year : Z;
  month : Z;
  day : Z
}.

Record datetime : Type := mk_datetime {
  dt_date : cal_date;
  hour : Z;
  minute : Z;
  second : Z
}.

Global Instance cal_date_eq_dec : EqDecision cal_date.
Proof. solve_decision. Defined.

(** ** Response builders *)

Definition elicit_slot (session_attributes : option Attrs) (intent_name : string)
    (slot_set : SlotSet) (slot_to_elicit : string) (msg : option Message)
    (response_card : option ResponseCard) : Response :=
  mk_response session_attributes
    (ElicitSlot intent_name slot_set slot_to_elicit msg response_card).

Definition confirm_intent (session_attributes : option Attrs) (intent_name : string)
    (slot_set : SlotSet) (msg : option Message)
    (response_card : option ResponseCard) : Response :=
  mk_response session_attributes
    (ConfirmIntent intent_name slot_set msg response_card).

Definition close (session_attributes : option Attrs) (fulfillment_state : string)
    (msg : option Message) (response_card : option ResponseCard) : Response :=
  mk_response session_attributes (Close fulfillment_state msg response_card).

Definition delegate (session_attributes : option Attrs) (slot_set : SlotSet) : Response :=
  mk_response session_attributes (Delegate slot_set).

(** [buttons] is [None] without options, else the first [min(5, len)] of them. *)
Definition build_response_card (card_title subtitle : string)
    (options : option (list Button)) : ResponseCard :=
  let card_buttons :=
    match options with
    | None => None
    | Some opts => Some (take (Nat.min 5 (length opts)) opts)
    end in
  mk_card "application/vnd.amazonaws.card.generic" 1
    [mk_attachment card_title subtitle card_buttons].

(** ** Session matcher *)

(** The loop of [find_session]: the first entry passing both tests. *)
Fixpoint find_session_loop (session_type session_date session_time : string)
    (sessions : list Session) : option Session :=
  match sessions with
  | [] => None
  | s :: rest =>
      if String.eqb (Py.lower (track s)) (Py.lower session_type)
         && String.eqb (date s) session_date
      then
        if Py.str_gt (start s) session_time then Some s
        else find_session_loop session_type session_date session_time rest
      else find_session_loop session_type session_date session_time rest
  end.

(** [sessions] is the agenda after [json.loads]; falling off the end of the
    function is [None]. *)
Definition find_session (session_type : option string)
    (session_date session_time : string) (sessions : list Session) : option Session :=
  if Py.truthy session_type then
    match session_type with
    | Some ty => find_session_loop ty session_date session_time sessions
    | None => None
    end
  else None.

(** ** Option builder *)

Fixpoint build_options (session_date session_time : string)
    (sessions : list Session) (type_set : list string) : list Button :=
  match type_set with
  | [] => []
  | session_type :: rest =>
      match find_session (Some session_type) session_date session_time sessions with
      | Some s =>
          mk_button (track s +:+ " at " +:+ start s) session_type
            :: build_options session_date session_time sessions rest
      | None => build_options session_date session_time sessions rest
      end
  end.

(** ** Validator *)

Definition parse_int (n : string) : Py.num :=
  match Py.int n with
  | Some z => Py.Int z
  | None => Py.NaN
  end.

Definition build_validation_result (is_valid : bool) (violated_slot : option string)
    (message_content : option string) : ValidationResult :=
  match message_content with
  | None => mk_validation is_valid violated_slot None
  | Some c => mk_validation is_valid violated_slot (Some (mk_message "PlainText" c))
  end.

Definition unknown_track_message (session_type : string) : string :=
  "We cannot find a track named " +:+ session_type
  +:+ ". The available tracks are Inspire Me, Tech Specific and Seminar".

Definition date_reprompt_message : string :=
  "I did not understand that, what date would you like to check? e.g. 2017-11-08".

Definition single_date_message : string :=
  "Sorry, we only have one day agenda for this demo. Please input the conference day 2017-11-08.".

Definition business_hours_message : string :=
  "The conference hours are from 9am to 6pm. Can you specify a time during this range?".

(** [datetime.strptime('2017-11-08', '%Y-%m-%d').date()]. *)
Definition conference_date : cal_date := mk_date 2017 11 8.

(** The first [if] of the validator: [Some v] is an early [return v]. *)
Definition type_violation (session_type : option string) (type_set : list string)
    : option ValidationResult :=
  match session_type with
  | Some ty =>
      if negb (bool_decide (Py.lower ty ∈ type_set)) then
        Some (build_validation_result false (Some "SessionType")
                (Some (unknown_track_message ty)))
      else None
  | None => None
  end.

(** The [session_time] block. Unpacking [hour, minute = ...] raises
    [ValueError] unless the split has exactly two parts. *)
Definition time_violation (session_time : option string)
    : result (option ValidationResult) :=
  match session_time with
  | Some tm =>
      if negb (String.length tm =? 5)%nat then
        Ok (Some (build_validation_result false (Some "SessionTime") None))
      else
        match Py.split ":" tm with
        | [h; m] =>
            let hour := parse_int h in
            let minute := parse_int m in
            if Py.isnan hour || Py.isnan minute then
              Ok (Some (build_validation_result false (Some "SessionTime") None))
            else if Py.num_lt hour 8 || Py.num_gt hour 17 then
              Ok (Some (build_validation_result false (Some "SessionTime")
                          (Some business_hours_message)))
            else Ok None
        | _ => Raise ValueError
        end
  | None => Ok None
  end.

(** ** The built-in configuration of [book_session] *)

Definition session_types : list string := ["inspire me"; "tech specific"; "seminar"].

(** [json.loads(agenda_json)]. *)
Definition agenda : list Session :=
[
  mk_session "Opening Remarks"
    "Inspire Me" "2017-11-08" "09:15" "09:30";
  mk_session "How Technology Lets You Be YOU"
    "Inspire Me" "2017-11-08" "09:30" "10:00";
  mk_session "The Invisible Made Visible"
    "Inspire Me" "2017-11-08" "10:00" "10:30";
  mk_session "Business and Cultural Transformation in a Digital World"
    "Inspire Me" "2017-11-08" "10:30" "11:00";
  mk_session "How Agile Tribes support WiT"
    "Inspire Me" "2017-11-08" "11:00" "11:30";
  mk_session "The Road Ahead"
    "Inspire Me" "2017-11-08" "11:30" "12:00";
  mk_session "Quantifying the Effect of D&I Policy"
    "Inspire Me" "2017-11-08" "12:00" "12:30";
  mk_session "How We Try to Make a Lion Bulletproof"
    "Inspire Me" "2017-11-08" "12:30" "13:00";
  mk_session "Leading Teams in Tech"
    "Inspire Me" "2017-11-08" "14:00" "14:30";
  mk_session "Using Situational Awareness to Make Decisions"
    "Inspire Me" "2017-11-08" "14:30" "15:00";
  mk_session "How to Take Charge of your Life-Work Balance and Succeed in Ever-Changing Technology World"
    "Inspire Me" "2017-11-08" "15:00" "15:30";
  mk_session "The Road Less Traveled By: Engineering a Career in Cybersecurity"
    "Inspire Me" "2017-11-08" "16:00" "16:30";
  mk_session "An Engineering Managers Toolkit"
    "Inspire Me" "2017-11-08" "16:30" "17:00";
  mk_session "The Path for Women to Rule the Technology World"
    "Inspire Me" "2017-11-08" "17:00" "17:30";
  mk_session "Big Data: Myths vs Realities"
    "Tech Specific" "2017-11-08" "11:30" "12:00";
  mk_session "Browser Peer to Peer Connections for Fun and Profit"
    "Tech Specific" "2017-11-08" "12:00" "12:30";
  mk_session "Building an AI that Respects your Privacy"
    "Tech Specific" "2017-11-08" "12:30" "13:00";
  mk_session "Geek + E.I. = Success in AI"
    "Tech Specific" "2017-11-08" "14:00" "14:30";
  mk_session "Machine Learning Around Us"
    "Tech Specific" "2017-11-08" "14:30" "15:00";
  mk_session "Metabolic Modelling Software"
    "Tech Specific" "2017-11-08" "15:00" "15:30";
  mk_session "Project Liftoff"
    "Tech Specific" "2017-11-08" "16:00" "16:30";
  mk_session "New Kid on the Block(Chain)"
    "Tech Specific" "2017-11-08" "16:30" "17:00";
  mk_session "Optimizing Scrolling Performance of UITableView&UICollectionView"
    "Tech Specific" "2017-11-08" "17:00" "17:30";
  mk_session "Augmented Reality: Past, Present & Future"
    "Seminar" "2017-11-08" "12:30" "13:00";
  mk_session "Afraid of being Found Out: Kicking Imposter Syndrome in its Stupid Face!"
    "Seminar" "2017-11-08" "14:00" "15:00";
  mk_session "Developing for the Human Experience"
    "Seminar" "2017-11-08" "15:00" "15:30";
  mk_session "How to Build a Team; Diversity & Gender Inclusivity"
    "Seminar" "2017-11-08" "17:00" "17:30"
].

(** ** The request as mutable state *)

(** A computation that may read and update the request and may raise. *)
Definition M (A : Type) : Type := IntentRequest -> result A * IntentRequest.

Definition ret {A : Type} (a : A) : M A := fun st => (Ok a, st).

Definition raise {A : Type} (e : exn) : M A := fun st => (Raise e, st).

Definition bind {A B : Type} (m : M A) (k : A -> M B) : M B :=
  fun st =>
    match m st with
    | (Ok a, st') => k a st'
    | (Raise e, st') => (Raise e, st')
    end.

Global Instance M_ret : MRet M := @ret.
Global Instance M_bind : MBind M := fun A B k m => bind m k.

(** A pure step that may raise. *)
Definition lift {A : Type} (r : result A) : M A := fun st => (r, st).

Definition get_request : M IntentRequest := fun st => (Ok st, st).

(** [get_slots(intent_request)]: the request's own dictionary. *)
Definition get_slots : M SlotSet := fun st => (Ok (slots (currentIntent st)), st).

(** [get_slots(intent_request)[k]]. *)
Definition getitem (k : string) : M (option string) :=
  fun st =>
    match slots (currentIntent st) !! k with
    | Some v => (Ok v, st)
    | None => (Raise KeyError, st)
    end.

Definition with_slots (slot_set : SlotSet) (st : IntentRequest) : IntentRequest :=
  mk_request
    (mk_intent (intentName (currentIntent st)) slot_set
       (confirmationStatus (currentIntent st)))
    (sessionAttributes st) (invocationSource st) (userId st).

(** [slots[k] = v], on the dictionary the request holds. *)
Definition setitem (k : string) (v : option string) : M unit :=
  fun st => (Ok tt, with_slots (<[k := v]> (slots (currentIntent st))) st).

(** [validation_result['message']]: [KeyError] when the key is missing. *)
Definition getitem_message (v : ValidationResult) : result (option Message) :=
  match message v with
  | Some m => Ok (Some m)
  | None => Raise KeyError
  end.

(** The string a slot value holds; used only under the guard
    [Py.truthy v], where [v] is [Some _]. *)
Definition str_of (v : option string) : string := default EmptyString v.

Definition nl : string := String (ascii_of_nat 10) EmptyString.

(** One pass of the digest loop of [book_session]. *)
Definition digest_step (session_date session_time : string) (sessions : list Session)
    (acc t : string) : string :=
  match find_session (Some t) session_date session_time sessions with
  | Some session =>
      acc +:+ "-" +:+ track session +:+ " track: " +:+ name session
          +:+ " from " +:+ start session +:+ " to " +:+ end_ session +:+ nl
  | None => acc +:+ "-" +:+ t +:+ " track: None" +:+ nl
  end.

(** ['Session {} in the {} track at {} on {}'.format(session[...], ...)]:
    subscripting [None] raises [TypeError]. *)
Definition confirmation_content (session : option Session) : result string :=
  match session with
  | Some s =>
      Ok ("Session " +:+ name s +:+ " in the " +:+ track s
          +:+ " track at " +:+ start s +:+ " on " +:+ date s)
  | None => Raise TypeError
  end.

Definition booked_message : Message :=
  mk_message "PlainText" "Thank you. We have booked the session for you.".

Definition rating_card : ResponseCard :=
  build_response_card "Rate the session" "What do you think about this session?"
    (Some [mk_button "Great!" "1"; mk_button "Fine." "0"; mk_button "Boring :(" "-1"]).

Definition confirm_card : ResponseCard :=
  build_response_card "Confirm attendence" "Do you want to book the session?"
    (Some [mk_button "yes" "yes"; mk_button "no" "no"]).

(** ** A sample date parser

    An instance of the parser interface on which the model can be run:
    numeric [Y-M-D] and [Y/M/D] dates, zero padding optional. *)
Definition numeric_date (parts : list string) : result datetime :=
  match parts with
  | [y; m; d] =>
      match Py.digits 0 false y, Py.digits 0 false m, Py.digits 0 false d with
      | Some yv, Some mv, Some dv =>
          if (1 <=? mv)%Z && (mv <=? 12)%Z && (1 <=? dv)%Z && (dv <=? 31)%Z
          then Ok (mk_datetime (mk_date yv mv dv) 0 0 0)
          else Raise ValueError
      | _, _, _ => Raise ValueError
      end
  | _ => Raise ValueError
  end.

Definition sample_parse (s : string) : result datetime :=
  match numeric_date (Py.split "-" s) with
  | Ok d => Ok d
  | Raise _ => numeric_date (Py.split "/" s)
  end.

Fixpoint all_digits (s : string) : bool :=
  match s with
  | EmptyString => true
  | String c r =>
      match Py.digit_val c with
      | Some _ => all_digits r
      | None => false
      end
  end.

(** A second instance, which raises [OverflowError] on a run of twenty or
    more digits, as a parser does on a number too large for its integers,
    and is [sample_parse] elsewhere. *)
Definition overflow_parse (s : string) : result datetime :=
  if (20 <=? String.length s)%nat && all_digits s then Raise OverflowError
  else sample_parse s.

(** ** Router and entry point: what they end with *)

(** A response, an exception of the handler, or the router's own
    [Exception(reason)]. *)
Inductive outcome : Type :=
| Returned (r : Response)
| Raised (e : exn)
| RaisedException (reason : string).

Definition of_result (r : result Response) : outcome :=
  match r with
  | Ok a => Returned a
  | Raise e => Raised e
  end.

(** The event of [lambda_handler]: the request and, when the key is there,
    the ['bot'] dictionary. *)
Record Event : Type := mk_event {
  bot : option (gmap string string);
  event_request : IntentRequest
}.

(** [os.environ]. *)
Abbreviation Environ := (gmap string string).

Section Handler.

(** [dateutil.parser.parse]: a [datetime], or an exception. *)
Variable dateutil_parse : string -> result datetime.

(** Only [ValueError] is caught. *)
Definition isvalid_date (d : string) : result bool :=
  match dateutil_parse d with
  | Ok _ => Ok true
  | Raise ValueError => Ok false
  | Raise e => Raise e
  end.

(** The [session_date] block; the date is parsed a second time in the
    [elif]. *)
Definition date_violation (session_date : option string)
    : result (option ValidationResult) :=
  match session_date with
  | Some d =>
      res_bind (isvalid_date d) (fun valid =>
      if negb valid then
        Ok (Some (build_validation_result false (Some "SessionDate")
                    (Some date_reprompt_message)))
      else
        res_bind (dateutil_parse d) (fun parsed =>
        if negb (bool_decide (dt_date parsed = conference_date)) then
          Ok (Some (build_validation_result false (Some "SessionDate")
                      (Some single_date_message)))
        else Ok None))
  | None => Ok None
  end.

Definition validate_conference_booking
    (session_type session_date session_time : option string)
    (type_set : list string) : result ValidationResult :=
  match type_violation session_type type_set with
  | Some v => Ok v
  | None =>
      res_bind (date_violation session_date) (fun dv =>
      match dv with
      | Some v => Ok v
      | None =>
          res_bind (time_violation session_time) (fun tv =>
          match tv with
          | Some v => Ok v
          | None => Ok (build_validation_result true None None)
          end)
      end)
  end.



(** The dialog controller. *)
Definition book_session : M Response :=
  session_type ← getitem "SessionType";
  session_date ← getitem "SessionDate";
  session_time ← getitem "SessionTime";
  intent_request ← get_request;
  let output_session_attributes :=
    Some (default ∅ (sessionAttributes intent_request)) in
  let source := invocationSource intent_request in
  if String.eqb source "DialogCodeHook" then
    validation_result ←
      lift (validate_conference_booking session_type session_date session_time
              session_types);
    if negb (isValid validation_result) then
      match violatedSlot validation_result with
      | Some violated =>
          setitem violated None;;
          slot_set ← get_slots;
          msg ← lift (getitem_message validation_result);
          mret (elicit_slot (sessionAttributes intent_request)
                  (intentName (currentIntent intent_request))
                  slot_set violated msg None)
      | None => raise OutOfModel
      end
    else if Py.truthy session_date && Py.truthy session_time
            && negb (Py.truthy session_type) then
      let digest :=
        fold_left (digest_step (str_of session_date) (str_of session_time) agenda)
          session_types ("Sessions found: " +:+ nl) in
      slot_set ← get_slots;
      mret (elicit_slot output_session_attributes
              (intentName (currentIntent intent_request))
              slot_set "SessionType"
              (Some (mk_message "PlainText"
                       (digest +:+ nl +:+ "What track would you like to attend?")))
              (Some (build_response_card "Specify Track"
                       "What track would you like to attend?"
                       (Some (build_options (str_of session_date)
                                (str_of session_time) agenda session_types)))))
    else if Py.truthy session_date && Py.truthy session_time
            && Py.truthy session_type
            && String.eqb (confirmationStatus (currentIntent intent_request)) "None" then
      let session :=
        find_session session_type (str_of session_date) (str_of session_time) agenda in
      slot_set ← get_slots;
      summary ← lift (confirmation_content session);
      mret (confirm_intent output_session_attributes
              (intentName (currentIntent intent_request))
              slot_set (Some (mk_message "PlainText" summary))
              (Some confirm_card))
    else
      slot_set ← get_slots;
      mret (delegate output_session_attributes slot_set)
  else
    mret (close (sessionAttributes intent_request) "Fulfilled"
            (Some booked_message) (Some rating_card)).

(** The router. *)
Definition dispatch (intent_request : IntentRequest) : outcome * IntentRequest :=
  let intent_name := intentName (currentIntent intent_request) in
  if String.eqb intent_name "CheckConferenceAgenda" then
    let '(r, st) := book_session intent_request in (of_result r, st)
  else
    (RaisedException ("Intent with name " +:+ intent_name +:+ " not supported"),
     intent_request).

(** The entry point, on the process environment: [TZ] is set first, then
    [event['bot']['name']] is read, then the event goes to the router.
    [time.tzset()] and the log lines have no part in the result. *)
Definition lambda_handler (event : Event) (environ : Environ)
    : outcome * IntentRequest * Environ :=
  let environ' := <["TZ" := "America/New_York"]> environ in
  match bot event ≫= (fun b => b !! "name") with
  | Some _ =>
      let '(o, st) := dispatch (event_request event) in (o, st, environ')
  | None => (Raised KeyError, event_request event, environ')
  end.

End Handler.

(** * Specification-side definitions *)

(** A session answers a query when its track equals the wanted one up to
    case, its date is the wanted date, and its start is strictly after the
    wanted time in lexicographic order. *)
Definition qualifies (session_type session_date session_time : string)
    (s : Session) : Prop :=
  Py.lower (track s) = Py.lower session_type
  ∧ date s = session_date
  ∧ (session_time ?= start s)%string = Lt.

Global Instance qualifies_dec ty d t s : Decision (qualifies ty d t s).
Proof. unfold qualifies. apply _. Defined.

(** The matcher as the specification words it: nothing without a type,
    otherwise the first qualifying session in agenda order. *)
Definition spec_find_session (session_type : option string)
    (session_date session_time : string) (sessions : list Session) : option Session :=
  match session_type with
  | None => None
  | Some ty => snd <$> list_find (qualifies ty session_date session_time) sessions
  end.

(** The button [build_options] makes for one type, if any. *)
Definition option_for (session_date session_time : string) (sessions : list Session)
    (session_type : string) : option Button :=
  (fun s => mk_button (track s +:+ " at " +:+ start s) session_type)
    <$> find_session (Some session_type) session_date session_time sessions.

(** The verdicts of the validator. *)
Definition valid_verdict : ValidationResult := mk_validation true None None.

Definition invalid_verdict (slot : string) (m : option string) : ValidationResult :=
  mk_validation false (Some slot) (mk_message "PlainText" <$> m).

(** The slot the validator rejects on a dialogue turn of [req], if any. *)
Definition validation_failure (dateutil_parse : string -> result datetime)
    (req : IntentRequest) : option string :=
  if String.eqb (invocationSource req) "DialogCodeHook" then
    match slots (currentIntent req) !! "SessionType",
          slots (currentIntent req) !! "SessionDate",
          slots (currentIntent req) !! "SessionTime" with
    | Some ty, Some d, Some tm =>
        match validate_conference_booking dateutil_parse ty d tm session_types with
        | Ok v => if isValid v then None else violatedSlot v
        | Raise _ => None
        end
    | _, _, _ => None
    end
  else None.

(** The slot set a response carries, if it carries one. *)
Definition response_slots (r : Response) : option SlotSet :=
  match dialogAction r with
  | ElicitSlot _ s _ _ _ => Some s
  | ConfirmIntent _ s _ _ => Some s
  | Delegate s => Some s
  | Close _ _ _ => None
  end.

(** A request with the three slots set as given. *)
Definition request_with (ty d tm : option string) (status source : string)
    (attrs : option Attrs) : IntentRequest :=
  mk_request
    (mk_intent "CheckConferenceAgenda"
       (<["SessionType" := ty]> (<["SessionDate" := d]> (<["SessionTime" := tm]> ∅)))
       status)
    attrs source "user".

(** An agenda is ranked when, among the sessions of one track and one date,
    starts never decrease along the list. *)
Definition ranked (sessions : list Session) : Prop :=
  StronglySorted
    (fun x y => Py.lower (track x) = Py.lower (track y) → date x = date y →
                String.leb (start x) (start y) = true)
    sessions.

(** What the validator asks of each slot: an absent slot passes. *)
Definition type_ok (session_type : option string) (type_set : list string) : Prop :=
  match session_type with
  | None => True
  | Some ty => Py.lower ty ∈ type_set
  end.

Definition date_ok (dateutil_parse : string -> result datetime)
    (session_date : option string) : Prop :=
  match session_date with
  | None => True
  | Some d => ∃ dt, dateutil_parse d = Ok dt ∧ dt_date dt = conference_date
  end.

Definition time_ok (session_time : option string) : Prop :=
  match session_time with
  | None => True
  | Some t =>
      String.length t = 5
      ∧ ∃ h m hv mv, Py.split ":" t = [h; m] ∧ Py.int h = Some hv
                     ∧ Py.int m = Some mv ∧ (8 ≤ hv ≤ 17)%Z
  end.

(** The request one turn of [book_session] leaves behind. *)
Definition after_turn (dateutil_parse : string -> result datetime)
    (req : IntentRequest) : IntentRequest :=
  snd (book_session dateutil_parse req).

(** * Properties *)

Ltac run_monad :=
  unfold book_session, mbind, M_bind, bind, getitem, get_request, get_slots,
    setitem, lift, raise, mret, M_ret, ret.

(** ** Session matcher *)

Lemma str_gt_compare (a b : string) :
  Py.str_gt a b = true ↔ (b ?= a)%string = Lt.
Proof.
  unfold Py.str_gt, String.ltb.
  destruct (b ?= a)%string; split; congruence.
Qed.

Lemma loop_test_qualifies ty d t s :
  (String.eqb (Py.lower (track s)) (Py.lower ty) && String.eqb (date s) d = true
   ∧ Py.str_gt (start s) t = true)
  ↔ qualifies ty d t s.
Proof.
  unfold qualifies.
  rewrite andb_true_iff, !String.eqb_eq, str_gt_compare.
  tauto.
Qed.

(** The loop is a first-match search for [qualifies]. *)
Lemma find_session_loop_list_find ty d t sessions :
  find_session_loop ty d t sessions = snd <$> list_find (qualifies ty d t) sessions.
Proof.
  induction sessions as [|s rest IH]; [reflexivity|].
  cbn [find_session_loop list_find].
  pose proof (loop_test_qualifies ty d t s) as Hq.
  destruct (decide (qualifies ty d t s)) as [Hs|Hs].
  - apply Hq in Hs as [-> ->]. reflexivity.
  - rewrite IH.
    assert (snd <$> (prod_map S id <$> list_find (qualifies ty d t) rest)
            = snd <$> list_find (qualifies ty d t) rest) as ->.
    { destruct (list_find _ rest) as [[i x]|]; reflexivity. }
    destruct (String.eqb (Py.lower (track s)) (Py.lower ty) && String.eqb (date s) d)
      eqn:Htest; [|reflexivity].
    destruct (Py.str_gt (start s) t) eqn:Hgt; [|reflexivity].
    exfalso. apply Hs, Hq. auto.
Qed.

Lemma find_session_nonempty c r d t sessions :
  find_session (Some (String c r)) d t sessions
  = spec_find_session (Some (String c r)) d t sessions.
Proof. apply find_session_loop_list_find. Qed.

(** C4, as stated, fails: an empty-string type is a given type, yet the
    truth test of the matcher treats it as no type at all, so an agenda
    entry whose track is the empty string is not returned. *)
Lemma find_session_empty_type_differs :
  find_session (Some "") "2017-11-08" "09:00"
    [mk_session "Hallway" "" "2017-11-08" "10:00" "10:30"]
  ≠ spec_find_session (Some "") "2017-11-08" "09:00"
      [mk_session "Hallway" "" "2017-11-08" "10:00" "10:30"].
Proof. vm_compute. discriminate. Qed.

(** C4 (amended): [find_session] returns nothing when the session type is
    absent or the empty string; for every other type and every agenda, date
    and time it returns the first session in agenda order whose track equals
    the type case-insensitively, whose date equals the given date and whose
    start is lexicographically strictly greater than the given time, and it
    returns nothing exactly when no session qualifies. *)
Theorem find_session_first_match (d t : string) (sessions : list Session) :
  find_session None d t sessions = None
  ∧ find_session (Some "") d t sessions = None
  ∧ ∀ c r,
      (∀ s, find_session (Some (String c r)) d t sessions = Some s ↔
            ∃ i, sessions !! i = Some s
                 ∧ qualifies (String c r) d t s
                 ∧ ∀ j y, sessions !! j = Some y → j < i →
                          ¬ qualifies (String c r) d t y)
      ∧ (find_session (Some (String c r)) d t sessions = None ↔
         Forall (fun s => ¬ qualifies (String c r) d t s) sessions).
Proof.
  split; [reflexivity|]. split; [reflexivity|].
  intros c r. rewrite find_session_nonempty. unfold spec_find_session.
  split.
  - intros s. split.
    + intros ([i x] & Hfind & Hx)%fmap_Some. simpl in Hx. subst x.
      exists i. by apply (list_find_Some _).
    + intros (i & Hfind). apply (list_find_Some _) in Hfind. by rewrite Hfind.
  - rewrite fmap_None. apply list_find_None.
Qed.

(** C5: on the built-in agenda the Tech Specific query at 11:45 yields the
    12:00 session, no qualifying session starts earlier than 12:00, and the
    Inspire Me query at 17:45 yields nothing. *)
Theorem find_session_on_agenda :
  find_session (Some "Tech Specific") "2017-11-08" "11:45" agenda
  = Some (mk_session "Browser Peer to Peer Connections for Fun and Profit"
            "Tech Specific" "2017-11-08" "12:00" "12:30")
  ∧ Forall (fun s => qualifies "Tech Specific" "2017-11-08" "11:45" s →
                     String.leb "12:00" (start s) = true) agenda
  ∧ find_session (Some "inspire me") "2017-11-08" "17:45" agenda = None.
Proof.
  split; [vm_compute; reflexivity|]. split.
  - apply Forall_forall. intros s Hin Hq.
    apply list_elem_of_In in Hin.
    assert (forallb (fun x => implb (bool_decide (qualifies "Tech Specific"
              "2017-11-08" "11:45" x)) (String.leb "12:00" (start x))) agenda = true)
      as Hall by (vm_compute; reflexivity).
    rewrite forallb_forall in Hall. specialize (Hall s Hin).
    by rewrite (bool_decide_eq_true_2 _ Hq) in Hall.
  - vm_compute. reflexivity.
Qed.

(** ** Option builder and response card *)

Lemma option_for_unfold d t sessions ty :
  option_for d t sessions ty
  = match find_session (Some ty) d t sessions with
    | Some s => Some (mk_button (track s +:+ " at " +:+ start s) ty)
    | None => None
    end.
Proof. unfold option_for. by destruct (find_session _ _ _ _). Qed.

Lemma build_options_omap d t sessions type_set :
  build_options d t sessions type_set = omap (option_for d t sessions) type_set.
Proof.
  induction type_set as [|ty rest IH]; [reflexivity|].
  cbn [build_options]. rewrite IH. cbn [omap list_omap].
  rewrite option_for_unfold.
  destruct (find_session (Some ty) d t sessions); reflexivity.
Qed.

Lemma length_omap_le {A B : Type} (f : A → option B) (l : list A) :
  length (omap f l) ≤ length l.
Proof.
  induction l as [|x l IH]; [reflexivity|].
  cbn. destruct (f x); cbn; lia.
Qed.

(** [range(min(5, len(options)))] selects the first five options. *)
Lemma take_min_length {A : Type} (n : nat) (l : list A) :
  take (Nat.min n (length l)) l = take n l.
Proof.
  destruct (decide (n ≤ length l)) as [Hle|Hgt].
  - by rewrite Nat.min_l.
  - rewrite Nat.min_r by lia. by rewrite !take_ge by lia.
Qed.

(** C6: [build_options] makes one button per type that has a match, in
    input order and skipping the misses, so never more than there are
    types; the card of [build_response_card] carries the first five of the
    options it is given, hence at most five buttons. *)
Theorem options_and_buttons_bounded (d t : string) (sessions : list Session)
    (type_set : list string) (card_title subtitle : string)
    (options : option (list Button)) :
  build_options d t sessions type_set = omap (option_for d t sessions) type_set
  ∧ length (build_options d t sessions type_set) ≤ length type_set
  ∧ ∃ a, genericAttachments (build_response_card card_title subtitle options) = [a]
         ∧ buttons a = take 5 <$> options
         ∧ ∀ bs, buttons a = Some bs → length bs ≤ 5.
Proof.
  split; [apply build_options_omap|]. split.
  - rewrite build_options_omap. apply length_omap_le.
  - eexists. split; [reflexivity|]. cbn [buttons]. split.
    + destruct options as [opts|]; [|reflexivity].
      cbn [fmap option_fmap option_map]. by rewrite take_min_length.
    + intros bs Hbs. destruct options as [opts|]; [|discriminate].
      rewrite take_min_length in Hbs. injection Hbs as <-.
      rewrite length_take. lia.
Qed.

(** ** Validator *)

Section ValidatorProperties.

Variable dateutil_parse : string -> result datetime.

(** Once the type passes, the verdict is that of the date block, then of
    the time block. *)
Lemma validate_type_passes st sd tm ts :
  type_violation st ts = None →
  validate_conference_booking dateutil_parse st sd tm ts
  = res_bind (date_violation dateutil_parse sd) (fun dv =>
      match dv with
      | Some v => Ok v
      | None =>
          res_bind (time_violation tm) (fun tv =>
            match tv with
            | Some v => Ok v
            | None => Ok valid_verdict
            end)
      end).
Proof. intros Hty. unfold validate_conference_booking. by rewrite Hty. Qed.

Lemma date_violation_unparsable d :
  dateutil_parse d = Raise ValueError →
  date_violation dateutil_parse (Some d)
  = Ok (Some (invalid_verdict "SessionDate" (Some date_reprompt_message))).
Proof.
  intros Hp. unfold date_violation, isvalid_date. by rewrite Hp.
Qed.

Lemma date_violation_parsed d dt :
  dateutil_parse d = Ok dt →
  date_violation dateutil_parse (Some d)
  = if decide (dt_date dt = conference_date) then Ok None
    else Ok (Some (invalid_verdict "SessionDate" (Some single_date_message))).
Proof.
  intros Hp. unfold date_violation, isvalid_date. rewrite Hp. cbn [res_bind negb].
  unfold bool_decide.
  by destruct (decide_rel eq (dt_date dt) conference_date), (decide _).
Qed.

(** The time block on a five-character string that splits into two parts. *)
Lemma time_violation_two_parts tm h m :
  String.length tm = 5 → Py.split ":" tm = [h; m] →
  time_violation (Some tm)
  = match Py.int h, Py.int m with
    | Some hv, Some _ =>
        if decide (8 ≤ hv ≤ 17)%Z then Ok None
        else Ok (Some (invalid_verdict "SessionTime" (Some business_hours_message)))
    | _, _ => Ok (Some (invalid_verdict "SessionTime" None))
    end.
Proof.
  intros Hlen Hsplit. unfold time_violation, parse_int.
  rewrite Hlen, Hsplit. cbn [Nat.eqb negb].
  destruct (Py.int h) as [hv|]; [|reflexivity].
  destruct (Py.int m) as [mv|]; [|reflexivity].
  cbn [Py.isnan orb Py.num_lt Py.num_gt].
  destruct (decide (8 ≤ hv ≤ 17)%Z) as [Hin|Hout].
  - assert ((hv <? 8)%Z = false) as -> by lia.
    assert ((17 <? hv)%Z = false) as -> by lia.
    reflexivity.
  - destruct (hv <? 8)%Z eqn:Hlo; [reflexivity|].
    destruct (17 <? hv)%Z eqn:Hhi; [reflexivity|]. lia.
Qed.

(** C2 (defect): a five-character time that does not split at the colon
    into exactly two parts makes the validator raise instead of returning a
    verdict: unpacking the split fails with [ValueError], for instance on
    ['12345'] and on ['1:2:3']. *)
Theorem time_without_colon_raises (type_set : list string) :
  (∀ tm, String.length tm = 5 → length (Py.split ":" tm) ≠ 2 →
         validate_conference_booking dateutil_parse None None (Some tm) type_set
         = Raise ValueError)
  ∧ validate_conference_booking dateutil_parse None None (Some "12345") type_set
    = Raise ValueError
  ∧ validate_conference_booking dateutil_parse None None (Some "1:2:3") type_set
    = Raise ValueError.
Proof.
  split; [|split; reflexivity].
  intros tm Hlen Hparts.
  unfold validate_conference_booking, type_violation, date_violation, time_violation.
  cbn [res_bind]. rewrite Hlen. cbn [Nat.eqb negb].
  destruct (Py.split ":" tm) as [|h [|m [|x rest]]]; try reflexivity.
  by destruct Hparts.
Qed.

(** C8 (defect): [isvalid_date] catches [ValueError] only, so a date on
    which the parser raises anything else is not rejected on [SessionDate]:
    with a type that passes, the validator raises that exception instead of
    returning a verdict. *)
Theorem date_parser_exception_escapes (session_type : option string) (d : string)
    (session_time : option string) (type_set : list string) (e : exn) :
  type_violation session_type type_set = None →
  dateutil_parse d = Raise e →
  e ≠ ValueError →
  validate_conference_booking dateutil_parse session_type (Some d) session_time type_set
  = Raise e.
Proof.
  intros Hty Hp Hne. rewrite validate_type_passes by done.
  unfold date_violation, isvalid_date. rewrite Hp.
  by destruct e.
Qed.

(** X19: with a type that passes, a date on which the parser raises
    [ValueError] is rejected on [SessionDate] with the reprompt message, a
    date that parses to another
    day than 2017-11-08 is rejected on [SessionDate] with the single-date
    message, and a date that parses to 2017-11-08, however it is written,
    leaves the verdict to the time check alone. *)
Theorem date_check (session_type : option string) (d : string)
    (session_time : option string) (type_set : list string) :
  type_violation session_type type_set = None →
  (dateutil_parse d = Raise ValueError →
   validate_conference_booking dateutil_parse session_type (Some d) session_time type_set
   = Ok (mk_validation false (Some "SessionDate")
           (Some (mk_message "PlainText" date_reprompt_message))))
  ∧ (∀ dt, dateutil_parse d = Ok dt → dt_date dt ≠ conference_date →
     validate_conference_booking dateutil_parse session_type (Some d) session_time type_set
     = Ok (mk_validation false (Some "SessionDate")
             (Some (mk_message "PlainText" single_date_message))))
  ∧ (∀ dt, dateutil_parse d = Ok dt → dt_date dt = conference_date →
     validate_conference_booking dateutil_parse session_type (Some d) session_time type_set
     = validate_conference_booking dateutil_parse session_type None session_time type_set).
Proof.
  intros Hty. rewrite !validate_type_passes by done. split_and!.
  - intros Hp. by rewrite date_violation_unparsable.
  - intros dt Hp Hne. rewrite (date_violation_parsed _ _ Hp).
    by destruct (decide _).
  - intros dt Hp Heq. rewrite (date_violation_parsed _ _ Hp).
    by destruct (decide _).
Qed.

(** C10: with a type and a date that pass, a five-character time whose two
    colon-separated parts parse as integers and whose hour lies in [8,17] is
    valid, whatever the minute is. *)
Theorem hour_in_range_any_minute (session_type session_date : option string)
    (tm h m : string) (hv mv : Z) (type_set : list string) :
  type_violation session_type type_set = None →
  date_violation dateutil_parse session_date = Ok None →
  String.length tm = 5 →
  Py.split ":" tm = [h; m] →
  Py.int h = Some hv →
  Py.int m = Some mv →
  (8 ≤ hv ≤ 17)%Z →
  validate_conference_booking dateutil_parse session_type session_date (Some tm) type_set
  = Ok (mk_validation true None None).
Proof.
  intros Hty Hdate Hlen Hsplit Hh Hm Hrange.
  rewrite validate_type_passes by done. rewrite Hdate. cbn [res_bind].
  rewrite (time_violation_two_parts _ _ _ Hlen Hsplit), Hh, Hm.
  by destruct (decide _).
Qed.

(** The time block rejects, without a message, every string that is not
    five characters long. *)
Lemma time_violation_wrong_length tm :
  String.length tm ≠ 5 →
  time_violation (Some tm) = Ok (Some (invalid_verdict "SessionTime" None)).
Proof.
  intros Hlen. unfold time_violation.
  apply Nat.eqb_neq in Hlen. by rewrite Hlen.
Qed.

(** X1: with a type and a date that pass, a time that is not five
    characters long, or whose two colon-separated parts do not both parse
    as integers, is rejected on [SessionTime] with no message; one whose
    hour is below 8 or above 17 is rejected with the business-hours
    message; and a five-character time that does not split into exactly two
    parts makes the validator raise [ValueError]. *)
Theorem time_check (session_type session_date : option string) (tm : string)
    (type_set : list string) :
  type_violation session_type type_set = None →
  date_violation dateutil_parse session_date = Ok None →
  (String.length tm ≠ 5 →
   validate_conference_booking dateutil_parse session_type session_date (Some tm) type_set
   = Ok (mk_validation false (Some "SessionTime") None))
  ∧ (String.length tm = 5 → ∀ h m, Py.split ":" tm = [h; m] →
     (Py.int h = None ∨ Py.int m = None →
      validate_conference_booking dateutil_parse session_type session_date (Some tm)
        type_set
      = Ok (mk_validation false (Some "SessionTime") None))
     ∧ (∀ hv mv, Py.int h = Some hv → Py.int m = Some mv → (hv < 8 ∨ 17 < hv)%Z →
        validate_conference_booking dateutil_parse session_type session_date (Some tm)
          type_set
        = Ok (mk_validation false (Some "SessionTime")
                (Some (mk_message "PlainText" business_hours_message)))))
  ∧ (String.length tm = 5 → length (Py.split ":" tm) ≠ 2 →
     validate_conference_booking dateutil_parse session_type session_date (Some tm)
       type_set
     = Raise ValueError).
Proof.
  intros Hty Hdate. rewrite !validate_type_passes by done. rewrite Hdate.
  cbn [res_bind]. split_and!.
  - intros Hlen. by rewrite time_violation_wrong_length.
  - intros Hlen h m Hsplit.
    rewrite (time_violation_two_parts _ _ _ Hlen Hsplit). split.
    + intros [Hh|Hm].
      * by rewrite Hh.
      * rewrite Hm. by destruct (Py.int h).
    + intros hv mv Hh Hm Hout. rewrite Hh, Hm.
      destruct (decide (8 ≤ hv ≤ 17)%Z); [lia|reflexivity].
  - intros Hlen Hparts. unfold time_violation. rewrite Hlen. cbn [Nat.eqb negb].
    destruct (Py.split ":" tm) as [|h [|m [|x rest]]]; try reflexivity.
    by destruct Hparts.
Qed.

(** X2: a supplied track whose lower-cased form is not among the allowed
    ones is rejected on [SessionType] with the message naming it, whatever
    the date and the time are. *)
Theorem unknown_track_rejected (ty : string) (session_date session_time : option string)
    (type_set : list string) :
  Py.lower ty ∉ type_set →
  validate_conference_booking dateutil_parse (Some ty) session_date session_time type_set
  = Ok (mk_validation false (Some "SessionType")
          (Some (mk_message "PlainText" (unknown_track_message ty)))).
Proof.
  intros Hnot. unfold validate_conference_booking, type_violation.
  by rewrite bool_decide_eq_false_2.
Qed.

End ValidatorProperties.

(** [date_parser_exception_escapes] on a run of twenty-six digits. *)
Lemma date_parser_exception_escapes_witness :
  overflow_parse "99999999999999999999999999" = Raise OverflowError
  ∧ validate_conference_booking overflow_parse None
      (Some "99999999999999999999999999") None session_types
    = Raise OverflowError.
Proof.
  split; [reflexivity|].
  apply (date_parser_exception_escapes overflow_parse None
           "99999999999999999999999999" None session_types OverflowError);
    [reflexivity | reflexivity | discriminate].
Defined.

(** [date_check] on the date written ['2017/11/8']. *)
Lemma date_check_witness :
  type_violation (Some "Seminar") session_types = None
  ∧ validate_conference_booking sample_parse (Some "Seminar") (Some "2017/11/8")
      (Some "10:15") session_types
    = validate_conference_booking sample_parse (Some "Seminar") None
        (Some "10:15") session_types.
Proof.
  split; [reflexivity|].
  refine (proj2 (proj2 (date_check sample_parse (Some "Seminar") "2017/11/8"
                          (Some "10:15") session_types _)) _ _ _);
    reflexivity.
Defined.

(** [hour_in_range_any_minute] on the time ['09:99']. *)
Lemma hour_in_range_any_minute_witness :
  validate_conference_booking sample_parse None (Some "2017-11-08") (Some "09:99")
    session_types
  = Ok (mk_validation true None None).
Proof.
  apply (hour_in_range_any_minute sample_parse None (Some "2017-11-08")
           "09:99" "09" "99" 9 99 session_types);
    [reflexivity | reflexivity | reflexivity | reflexivity | reflexivity
    | reflexivity | lia].
Defined.

(** ** Dialog controller *)

Lemma ok_response_slots (x r : Response) (s : SlotSet) :
  Ok x = Ok r → response_slots r = Some s → response_slots x = Some s.
Proof. intros [= ->]. done. Qed.

Ltac carried_slots Hr Hs :=
  let H := fresh in
  pose proof (ok_response_slots _ _ _ Hr Hs) as H;
  unfold response_slots in H; cbn [dialogAction] in H; congruence.

Section ControllerProperties.

Variable dateutil_parse : string -> result datetime.

(** A turn that is not a dialogue turn, with the three slot keys present. *)
Lemma fulfillment_turn (req : IntentRequest) (ty d tm : option string) :
  slots (currentIntent req) !! "SessionType" = Some ty →
  slots (currentIntent req) !! "SessionDate" = Some d →
  slots (currentIntent req) !! "SessionTime" = Some tm →
  String.eqb (invocationSource req) "DialogCodeHook" = false →
  book_session dateutil_parse req
  = (Ok (close (sessionAttributes req) "Fulfilled" (Some booked_message)
           (Some rating_card)),
     req).
Proof.
  intros Hty Hd Htm Hsrc. run_monad. by rewrite Hty, Hd, Htm, Hsrc.
Qed.

(** C7: on a turn whose source is not ['DialogCodeHook'], whatever the slot
    values and the confirmation status, [book_session] returns the [Close]
    response with state ['Fulfilled'], the fixed message and the rating
    card, and leaves the request as it was; the validator is not
    consulted. *)
Theorem fulfillment_turn_closes (req : IntentRequest) :
  is_Some (slots (currentIntent req) !! "SessionType") →
  is_Some (slots (currentIntent req) !! "SessionDate") →
  is_Some (slots (currentIntent req) !! "SessionTime") →
  invocationSource req ≠ "DialogCodeHook" →
  book_session dateutil_parse req
  = (Ok (mk_response (sessionAttributes req)
           (Close "Fulfilled"
              (Some (mk_message "PlainText"
                       "Thank you. We have booked the session for you."))
              (Some (mk_card "application/vnd.amazonaws.card.generic" 1
                       [mk_attachment "Rate the session"
                          "What do you think about this session?"
                          (Some [mk_button "Great!" "1"; mk_button "Fine." "0";
                                 mk_button "Boring :(" "-1"])])))),
     req).
Proof.
  intros [ty Hty] [d Hd] [tm Htm] Hsrc. run_monad.
  rewrite Hty, Hd, Htm.
  apply String.eqb_neq in Hsrc. rewrite Hsrc. reflexivity.
Qed.

(** Every invalid verdict names one of the three slots. *)
Lemma invalid_verdict_names_slot ty d tm ts v :
  validate_conference_booking dateutil_parse ty d tm ts = Ok v →
  isValid v = false →
  ∃ k, violatedSlot v = Some k.
Proof.
  unfold validate_conference_booking, type_violation, date_violation, isvalid_date,
    time_violation, build_validation_result.
  intros Hv Hinv.
  repeat (case_match; simplify_eq/=; eauto).
Qed.

(** A dialogue turn on which the validator rejects slot [k]: the slot is
    cleared in the request, and the response elicits [k] with the verdict's
    message; reading a message the verdict does not have raises. *)
Lemma rejected_turn (req : IntentRequest) (ty d tm : option string)
    (v : ValidationResult) (k : string) :
  slots (currentIntent req) !! "SessionType" = Some ty →
  slots (currentIntent req) !! "SessionDate" = Some d →
  slots (currentIntent req) !! "SessionTime" = Some tm →
  invocationSource req = "DialogCodeHook" →
  validate_conference_booking dateutil_parse ty d tm session_types = Ok v →
  isValid v = false →
  violatedSlot v = Some k →
  book_session dateutil_parse req
  = (match message v with
     | Some m =>
         Ok (mk_response (sessionAttributes req)
               (ElicitSlot (intentName (currentIntent req))
                  (<[k := None]> (slots (currentIntent req))) k (Some m) None))
     | None => Raise KeyError
     end,
     with_slots (<[k := None]> (slots (currentIntent req))) req).
Proof.
  intros Hty Hd Htm Hsrc Hv Hinv Hk. run_monad.
  rewrite Hty, Hd, Htm, Hsrc, Hv, Hinv, Hk. cbn.
  unfold getitem_message. by destruct (message v).
Qed.

(** A dialogue turn on which the validator accepts the slots: the request
    is left as it was and the response is chosen by the three tests of
    [book_session], in their order. *)
Lemma accepted_turn (req : IntentRequest) (ty d tm : option string)
    (v : ValidationResult) :
  slots (currentIntent req) !! "SessionType" = Some ty →
  slots (currentIntent req) !! "SessionDate" = Some d →
  slots (currentIntent req) !! "SessionTime" = Some tm →
  invocationSource req = "DialogCodeHook" →
  validate_conference_booking dateutil_parse ty d tm session_types = Ok v →
  isValid v = true →
  book_session dateutil_parse req
  = (if Py.truthy d && Py.truthy tm && negb (Py.truthy ty) then
       Ok (mk_response (Some (default ∅ (sessionAttributes req)))
             (ElicitSlot (intentName (currentIntent req)) (slots (currentIntent req))
                "SessionType"
                (Some (mk_message "PlainText"
                         (fold_left (digest_step (str_of d) (str_of tm) agenda)
                            session_types ("Sessions found: " +:+ nl)
                          +:+ nl +:+ "What track would you like to attend?")))
                (Some (build_response_card "Specify Track"
                         "What track would you like to attend?"
                         (Some (build_options (str_of d) (str_of tm) agenda
                                  session_types))))))
     else if Py.truthy d && Py.truthy tm && Py.truthy ty
             && String.eqb (confirmationStatus (currentIntent req)) "None" then
       match find_session ty (str_of d) (str_of tm) agenda with
       | Some s =>
           Ok (mk_response (Some (default ∅ (sessionAttributes req)))
                 (ConfirmIntent (intentName (currentIntent req))
                    (slots (currentIntent req))
                    (Some (mk_message "PlainText"
                             ("Session " +:+ name s +:+ " in the " +:+ track s
                              +:+ " track at " +:+ start s +:+ " on " +:+ date s)))
                    (Some confirm_card)))
       | None => Raise TypeError
       end
     else
       Ok (mk_response (Some (default ∅ (sessionAttributes req)))
             (Delegate (slots (currentIntent req)))),
     req).
Proof.
  intros Hty Hd Htm Hsrc Hv Hval. run_monad.
  rewrite Hty, Hd, Htm, Hsrc, Hv, Hval. cbn [negb String.eqb Ascii.eqb Bool.eqb].
  destruct (Py.truthy d && Py.truthy tm && negb (Py.truthy ty)); [reflexivity|].
  destruct (Py.truthy d && Py.truthy tm && Py.truthy ty
            && String.eqb (confirmationStatus (currentIntent req)) "None");
    [|reflexivity].
  unfold confirmation_content.
  by destruct (find_session ty (str_of d) (str_of tm) agenda).
Qed.

(** C9: the request after [book_session] is the request before it, except
    on a dialogue turn whose slots the validator rejects, where the rejected
    slot, and nothing else, has been set to [None]; the session attributes
    are never changed, and on every other path a response that carries a
    slot set carries the request's own. *)
Theorem book_session_frame (req : IntentRequest) :
  sessionAttributes (snd (book_session dateutil_parse req)) = sessionAttributes req
  ∧ match validation_failure dateutil_parse req with
    | Some k =>
        snd (book_session dateutil_parse req)
        = with_slots (<[k := None]> (slots (currentIntent req))) req
    | None =>
        snd (book_session dateutil_parse req) = req
        ∧ ∀ r, fst (book_session dateutil_parse req) = Ok r →
               ∀ s, response_slots r = Some s → s = slots (currentIntent req)
    end.
Proof.
  assert (match validation_failure dateutil_parse req with
    | Some k =>
        snd (book_session dateutil_parse req)
        = with_slots (<[k := None]> (slots (currentIntent req))) req
    | None =>
        snd (book_session dateutil_parse req) = req
        ∧ ∀ r, fst (book_session dateutil_parse req) = Ok r →
               ∀ s, response_slots r = Some s → s = slots (currentIntent req)
    end) as Hframe.
  { unfold validation_failure.
    destruct (slots (currentIntent req) !! "SessionType") as [ty|] eqn:Hty; cycle 1.
    { run_monad. rewrite Hty. by destruct (String.eqb _ _). }
    destruct (slots (currentIntent req) !! "SessionDate") as [d|] eqn:Hd; cycle 1.
    { run_monad. rewrite Hty, Hd. by destruct (String.eqb _ _). }
    destruct (slots (currentIntent req) !! "SessionTime") as [tm|] eqn:Htm; cycle 1.
    { run_monad. rewrite Hty, Hd, Htm. by destruct (String.eqb _ _). }
    destruct (String.eqb (invocationSource req) "DialogCodeHook") eqn:Hsrc.
    - apply String.eqb_eq in Hsrc.
      destruct (validate_conference_booking dateutil_parse ty d tm session_types)
        as [v|e] eqn:Hv.
      + destruct (isValid v) eqn:Hval.
        * rewrite (accepted_turn req ty d tm v) by done. split; [done|].
          cbn [fst]. intros r Hr s Hs.
          destruct (Py.truthy d && Py.truthy tm && negb (Py.truthy ty));
            [carried_slots Hr Hs|].
          destruct (Py.truthy d && Py.truthy tm && Py.truthy ty && _);
            [|carried_slots Hr Hs].
          destruct (find_session ty (str_of d) (str_of tm) agenda);
            [carried_slots Hr Hs|discriminate].
        * destruct (invalid_verdict_names_slot _ _ _ _ _ Hv Hval) as [k Hk].
          rewrite Hk. by rewrite (rejected_turn req ty d tm v k).
      + run_monad. rewrite Hty, Hd, Htm, Hsrc, Hv. done.
    - rewrite (fulfillment_turn req ty d tm) by done. split; [done|].
      cbn [fst]. intros r Hr s Hs. pose proof (ok_response_slots _ _ _ Hr Hs).
      discriminate. }
  split; [|exact Hframe].
  destruct (validation_failure dateutil_parse req) as [k|].
  - by rewrite Hframe.
  - by destruct Hframe as [-> _].
Qed.

(** [book_session] never takes the branch the embedding gives no value to,
    unless the parser itself does. *)
Lemma book_session_in_model (req : IntentRequest) :
  (∀ d, dateutil_parse d ≠ Raise OutOfModel) →
  fst (book_session dateutil_parse req) ≠ Raise OutOfModel.
Proof.
  intros Hparse.
  destruct (slots (currentIntent req) !! "SessionType") as [ty|] eqn:Hty; cycle 1.
  { run_monad. by rewrite Hty. }
  destruct (slots (currentIntent req) !! "SessionDate") as [d|] eqn:Hd; cycle 1.
  { run_monad. by rewrite Hty, Hd. }
  destruct (slots (currentIntent req) !! "SessionTime") as [tm|] eqn:Htm; cycle 1.
  { run_monad. by rewrite Hty, Hd, Htm. }
  destruct (String.eqb (invocationSource req) "DialogCodeHook") eqn:Hsrc.
  - apply String.eqb_eq in Hsrc.
    destruct (validate_conference_booking dateutil_parse ty d tm session_types)
      as [v|e] eqn:Hv.
    + destruct (isValid v) eqn:Hval.
      * rewrite (accepted_turn req ty d tm v) by done. cbn [fst].
        repeat case_match; discriminate.
      * destruct (invalid_verdict_names_slot _ _ _ _ _ Hv Hval) as [k Hk].
        rewrite (rejected_turn req ty d tm v k) by done. cbn [fst].
        by destruct (message v).
    + run_monad. rewrite Hty, Hd, Htm, Hsrc, Hv. cbn [fst]. intros [= ->].
      revert Hv.
      unfold validate_conference_booking, type_violation, date_violation,
        isvalid_date, time_violation.
      destruct d as [d|]; [pose proof (Hparse d)|];
        repeat (case_match; simplify_eq/=; try done).
  - by rewrite (fulfillment_turn req ty d tm) by done.
Qed.

(** The verdict on the three slots of the request of C1's failing turn. *)
Lemma seminar_late_valid (dt : datetime) :
  dateutil_parse "2017-11-08" = Ok dt →
  dt_date dt = conference_date →
  validate_conference_booking dateutil_parse (Some "seminar") (Some "2017-11-08")
    (Some "17:30") session_types
  = Ok valid_verdict.
Proof.
  intros Hp Hdate. rewrite validate_type_passes by reflexivity.
  rewrite (date_violation_parsed _ _ _ Hp).
  destruct (decide (dt_date dt = conference_date)); [reflexivity|done].
Qed.

(** C1 (defect): all three slots are present and pass validation and the
    confirmation status is ['None'], yet no Seminar session starts after
    17:30, so the lookup yields nothing and building the summary raises
    [TypeError]: no [ConfirmIntent] is returned. *)
Theorem confirmation_without_match_raises (dt : datetime) (attrs : option Attrs) :
  dateutil_parse "2017-11-08" = Ok dt →
  dt_date dt = conference_date →
  find_session (Some "seminar") "2017-11-08" "17:30" agenda = None
  ∧ book_session dateutil_parse
      (request_with (Some "seminar") (Some "2017-11-08") (Some "17:30")
         "None" "DialogCodeHook" attrs)
    = (Raise TypeError,
       request_with (Some "seminar") (Some "2017-11-08") (Some "17:30")
         "None" "DialogCodeHook" attrs).
Proof.
  intros Hp Hdate. split; [vm_compute; reflexivity|].
  rewrite (accepted_turn _ (Some "seminar") (Some "2017-11-08") (Some "17:30")
             valid_verdict);
    [|reflexivity|reflexivity|reflexivity|reflexivity
     |by apply (seminar_late_valid dt)|reflexivity].
  f_equal.
Qed.

(** C3 (defect): the time ['9am'] is rejected with no message; the slot is
    cleared in the request, and reading the verdict's missing ['message']
    raises [KeyError], so no [ElicitSlot] is returned. *)
Theorem null_message_rejection_raises (attrs : option Attrs) :
  validate_conference_booking dateutil_parse None None (Some "9am") session_types
  = Ok (mk_validation false (Some "SessionTime") None)
  ∧ book_session dateutil_parse
      (request_with None None (Some "9am") "None" "DialogCodeHook" attrs)
    = (Raise KeyError,
       request_with None None None "None" "DialogCodeHook" attrs).
Proof.
  split; [reflexivity|].
  rewrite (rejected_turn _ None None (Some "9am")
             (mk_validation false (Some "SessionTime") None) "SessionTime");
    [|reflexivity..].
  cbn [message]. f_equal.
Qed.

(** X3: on a dialogue turn whose slots the validator rejects with a
    message, the rejected slot is set to [None] in the request and the
    response elicits that slot, carrying the cleared slot set and the
    validator's message. *)
Theorem rejection_with_message_elicits (req : IntentRequest) (ty d tm : option string)
    (k : string) (m : Message) :
  slots (currentIntent req) !! "SessionType" = Some ty →
  slots (currentIntent req) !! "SessionDate" = Some d →
  slots (currentIntent req) !! "SessionTime" = Some tm →
  invocationSource req = "DialogCodeHook" →
  validate_conference_booking dateutil_parse ty d tm session_types
  = Ok (mk_validation false (Some k) (Some m)) →
  book_session dateutil_parse req
  = (Ok (mk_response (sessionAttributes req)
           (ElicitSlot (intentName (currentIntent req))
              (<[k := None]> (slots (currentIntent req))) k (Some m) None)),
     with_slots (<[k := None]> (slots (currentIntent req))) req).
Proof.
  intros Hty Hd Htm Hsrc Hv.
  by rewrite (rejected_turn req ty d tm _ k Hty Hd Htm Hsrc Hv).
Qed.

(** X4: on a dialogue turn with the three slots non-empty and accepted by
    the validator and confirmation status ['None'], a session found by the
    matcher is summarised in a [ConfirmIntent] response with the yes/no
    card, and the request is left as it was. *)
Theorem confirmation_with_match (req : IntentRequest) (ty d tm : string)
    (v : ValidationResult) (s : Session) :
  slots (currentIntent req) !! "SessionType" = Some (Some ty) →
  slots (currentIntent req) !! "SessionDate" = Some (Some d) →
  slots (currentIntent req) !! "SessionTime" = Some (Some tm) →
  ty ≠ "" → d ≠ "" → tm ≠ "" →
  invocationSource req = "DialogCodeHook" →
  confirmationStatus (currentIntent req) = "None" →
  validate_conference_booking dateutil_parse (Some ty) (Some d) (Some tm) session_types
  = Ok v →
  isValid v = true →
  find_session (Some ty) d tm agenda = Some s →
  book_session dateutil_parse req
  = (Ok (mk_response (Some (default ∅ (sessionAttributes req)))
           (ConfirmIntent (intentName (currentIntent req)) (slots (currentIntent req))
              (Some (mk_message "PlainText"
                       ("Session " +:+ name s +:+ " in the " +:+ track s
                        +:+ " track at " +:+ start s +:+ " on " +:+ date s)))
              (Some (mk_card "application/vnd.amazonaws.card.generic" 1
                       [mk_attachment "Confirm attendence"
                          "Do you want to book the session?"
                          (Some [mk_button "yes" "yes"; mk_button "no" "no"])])))),
     req).
Proof.
  intros Hty Hd Htm Nty Nd Ntm Hsrc Hstatus Hv Hval Hfind.
  rewrite (accepted_turn req _ _ _ v Hty Hd Htm Hsrc Hv Hval).
  destruct ty as [|c1 r1]; [done|]. destruct d as [|c2 r2]; [done|].
  destruct tm as [|c3 r3]; [done|].
  rewrite Hstatus. unfold str_of. cbn [Py.truthy negb andb from_option id].
  assert (String.eqb "None" "None" = true) as -> by reflexivity.
  cbn [andb]. by rewrite Hfind.
Qed.

End ControllerProperties.

(** [fulfillment_turn_closes] on a request whose slots the validator
    would not accept. *)
Lemma fulfillment_turn_closes_witness :
  invocationSource
    (request_with (Some "cooking") (Some "tomorrow") (Some "12345") "Denied"
       "FulfillmentCodeHook" None)
  ≠ "DialogCodeHook"
  ∧ book_session sample_parse
      (request_with (Some "cooking") (Some "tomorrow") (Some "12345") "Denied"
         "FulfillmentCodeHook" None)
    = (Ok (mk_response None
             (Close "Fulfilled"
                (Some (mk_message "PlainText"
                         "Thank you. We have booked the session for you."))
                (Some (mk_card "application/vnd.amazonaws.card.generic" 1
                         [mk_attachment "Rate the session"
                            "What do you think about this session?"
                            (Some [mk_button "Great!" "1"; mk_button "Fine." "0";
                                   mk_button "Boring :(" "-1"])])))),
       request_with (Some "cooking") (Some "tomorrow") (Some "12345") "Denied"
         "FulfillmentCodeHook" None).
Proof.
  split; [discriminate|].
  apply (fulfillment_turn_closes sample_parse
           (request_with (Some "cooking") (Some "tomorrow") (Some "12345") "Denied"
              "FulfillmentCodeHook" None));
    [eexists; reflexivity | eexists; reflexivity | eexists; reflexivity
    | discriminate].
Defined.

(** [confirmation_without_match_raises] with the sample parser. *)
Lemma confirmation_without_match_raises_witness :
  sample_parse "2017-11-08" = Ok (mk_datetime conference_date 0 0 0)
  ∧ book_session sample_parse
      (request_with (Some "seminar") (Some "2017-11-08") (Some "17:30")
         "None" "DialogCodeHook" None)
    = (Raise TypeError,
       request_with (Some "seminar") (Some "2017-11-08") (Some "17:30")
         "None" "DialogCodeHook" None).
Proof.
  split; [reflexivity|].
  apply (confirmation_without_match_raises sample_parse
           (mk_datetime conference_date 0 0 0) None);
    reflexivity.
Defined.

(** [time_check] on the time ['07:30']. *)
Lemma time_check_witness :
  validate_conference_booking sample_parse None None (Some "07:30") session_types
  = Ok (mk_validation false (Some "SessionTime")
          (Some (mk_message "PlainText" business_hours_message))).
Proof.
  refine (proj2 (proj1 (proj2 (time_check sample_parse None None "07:30"
                                 session_types _ _)) _ "07" "30" _) 7%Z 30%Z _ _ _);
    [reflexivity | reflexivity | reflexivity | reflexivity | reflexivity
    | reflexivity | lia].
Defined.

(** [unknown_track_rejected] on the track ['Cooking']. *)
Lemma unknown_track_rejected_witness :
  validate_conference_booking sample_parse (Some "Cooking") None None session_types
  = Ok (mk_validation false (Some "SessionType")
          (Some (mk_message "PlainText" (unknown_track_message "Cooking")))).
Proof.
  apply (unknown_track_rejected sample_parse "Cooking" None None session_types).
  vm_compute. intros Hin.
  repeat (apply elem_of_cons in Hin as [Hin|Hin]; [discriminate Hin|]).
  by apply elem_of_nil in Hin.
Defined.

(** [rejection_with_message_elicits] on the date ['2017-11-09']. *)
Lemma rejection_with_message_elicits_witness :
  book_session sample_parse
    (request_with None (Some "2017-11-09") None "None" "DialogCodeHook" None)
  = (Ok (mk_response None
           (ElicitSlot "CheckConferenceAgenda"
              (<["SessionType" := None]> (<["SessionDate" := None]>
                 (<["SessionTime" := None]> ∅)))
              "SessionDate" (Some (mk_message "PlainText" single_date_message)) None)),
     request_with None None None "None" "DialogCodeHook" None).
Proof.
  apply (rejection_with_message_elicits sample_parse
           (request_with None (Some "2017-11-09") None "None" "DialogCodeHook" None)
           None (Some "2017-11-09") None "SessionDate"
           (mk_message "PlainText" single_date_message));
    reflexivity.
Defined.

(** [confirmation_with_match] on the Tech Specific query at 11:45. *)
Lemma confirmation_with_match_witness :
  book_session sample_parse
    (request_with (Some "Tech Specific") (Some "2017-11-08") (Some "11:45")
       "None" "DialogCodeHook" None)
  = (Ok (mk_response (Some ∅)
           (ConfirmIntent "CheckConferenceAgenda"
              (<["SessionType" := Some "Tech Specific"]>
                 (<["SessionDate" := Some "2017-11-08"]>
                    (<["SessionTime" := Some "11:45"]> ∅)))
              (Some (mk_message "PlainText"
                       "Session Browser Peer to Peer Connections for Fun and Profit in the Tech Specific track at 12:00 on 2017-11-08"))
              (Some (mk_card "application/vnd.amazonaws.card.generic" 1
                       [mk_attachment "Confirm attendence"
                          "Do you want to book the session?"
                          (Some [mk_button "yes" "yes"; mk_button "no" "no"])])))),
     request_with (Some "Tech Specific") (Some "2017-11-08") (Some "11:45")
       "None" "DialogCodeHook" None).
Proof.
  apply (confirmation_with_match sample_parse
           (request_with (Some "Tech Specific") (Some "2017-11-08") (Some "11:45")
              "None" "DialogCodeHook" None)
           "Tech Specific" "2017-11-08" "11:45" valid_verdict
           (mk_session "Browser Peer to Peer Connections for Fun and Profit"
              "Tech Specific" "2017-11-08" "12:00" "12:30"));
    first [reflexivity | discriminate].
Defined.

(** X5: the turn sequence of a conversation, run with the sample parser:
    no slot filled gives [Delegate]; date and time filled gives [ElicitSlot]
    for [SessionType] with the digest of the three tracks and a card of
    three buttons; all three slots filled and unconfirmed gives
    [ConfirmIntent] with the session's summary; the fulfillment turn gives
    [Close] with state ['Fulfilled']. *)
Theorem turn_sequence :
  fst (book_session sample_parse
         (request_with None None None "None" "DialogCodeHook" None))
  = Ok (mk_response (Some ∅)
          (Delegate (<["SessionType" := None]> (<["SessionDate" := None]>
                       (<["SessionTime" := None]> ∅)))))
  ∧ fst (book_session sample_parse
           (request_with None (Some "2017-11-08") (Some "10:15") "None"
              "DialogCodeHook" None))
    = Ok (mk_response (Some ∅)
            (ElicitSlot "CheckConferenceAgenda"
               (<["SessionType" := None]> (<["SessionDate" := Some "2017-11-08"]>
                  (<["SessionTime" := Some "10:15"]> ∅)))
               "SessionType"
               (Some (mk_message "PlainText"
                  ("Sessions found: " +:+ nl
                   +:+ "-Inspire Me track: Business and Cultural Transformation in a Digital World from 10:30 to 11:00"
                   +:+ nl
                   +:+ "-Tech Specific track: Big Data: Myths vs Realities from 11:30 to 12:00"
                   +:+ nl
                   +:+ "-Seminar track: Augmented Reality: Past, Present & Future from 12:30 to 13:00"
                   +:+ nl +:+ nl
                   +:+ "What track would you like to attend?")))
               (Some (mk_card "application/vnd.amazonaws.card.generic" 1
                        [mk_attachment "Specify Track"
                           "What track would you like to attend?"
                           (Some [mk_button "Inspire Me at 10:30" "inspire me";
                                  mk_button "Tech Specific at 11:30" "tech specific";
                                  mk_button "Seminar at 12:30" "seminar"])]))))
  ∧ fst (book_session sample_parse
           (request_with (Some "Seminar") (Some "2017-11-08") (Some "10:15") "None"
              "DialogCodeHook" None))
    = Ok (mk_response (Some ∅)
            (ConfirmIntent "CheckConferenceAgenda"
               (<["SessionType" := Some "Seminar"]>
                  (<["SessionDate" := Some "2017-11-08"]>
                     (<["SessionTime" := Some "10:15"]> ∅)))
               (Some (mk_message "PlainText"
                  "Session Augmented Reality: Past, Present & Future in the Seminar track at 12:30 on 2017-11-08"))
               (Some (mk_card "application/vnd.amazonaws.card.generic" 1
                        [mk_attachment "Confirm attendence"
                           "Do you want to book the session?"
                           (Some [mk_button "yes" "yes"; mk_button "no" "no"])]))))
  ∧ fst (book_session sample_parse
           (request_with (Some "Seminar") (Some "2017-11-08") (Some "10:15")
              "Confirmed" "FulfillmentCodeHook" None))
    = Ok (mk_response None
            (Close "Fulfilled"
               (Some (mk_message "PlainText"
                        "Thank you. We have booked the session for you."))
               (Some (mk_card "application/vnd.amazonaws.card.generic" 1
                        [mk_attachment "Rate the session"
                           "What do you think about this session?"
                           (Some [mk_button "Great!" "1"; mk_button "Fine." "0";
                                  mk_button "Boring :(" "-1"])])))).
Proof.
  split_and!; vm_compute; reflexivity.
Qed.

(** * Further properties *)

(** ** Session matcher and option builder *)

Lemma lower_empty_iff (a b : string) :
  Py.lower a = Py.lower b → Py.truthy (Some a) = Py.truthy (Some b).
Proof. by destruct a, b. Qed.

Lemma find_session_loop_lower ty ty' d t sessions :
  Py.lower ty = Py.lower ty' →
  find_session_loop ty d t sessions = find_session_loop ty' d t sessions.
Proof.
  intros Hlow. induction sessions as [|s rest IH]; [reflexivity|].
  cbn [find_session_loop]. by rewrite Hlow, IH.
Qed.

(** X6: track names are compared without regard to case: two types with
    the same lower-cased form get the same answer from [find_session], and
    the validator's type check accepts both or neither. *)
Theorem track_case_insensitive (ty ty' d t : string) (sessions : list Session)
    (type_set : list string) :
  Py.lower ty = Py.lower ty' →
  find_session (Some ty) d t sessions = find_session (Some ty') d t sessions
  ∧ (type_violation (Some ty) type_set = None
     ↔ type_violation (Some ty') type_set = None).
Proof.
  intros Hlow. split.
  - unfold find_session. rewrite (lower_empty_iff _ _ Hlow).
    by rewrite (find_session_loop_lower _ _ _ _ _ Hlow).
  - unfold type_violation. rewrite Hlow.
    by destruct (bool_decide (Py.lower ty' ∈ type_set)).
Qed.

Lemma leb_refl (a : string) : String.leb a a = true.
Proof.
  apply Is_true_true. change (String.le a a). reflexivity.
Qed.

Lemma find_session_loop_earliest ty d t sessions s :
  ranked sessions →
  find_session_loop ty d t sessions = Some s →
  Forall (fun y => qualifies ty d t y → String.leb (start s) (start y) = true)
    sessions.
Proof.
  induction sessions as [|x rest IH]; intros Hranked Hfind; [constructor|].
  apply StronglySorted_cons in Hranked as [Hhead Hrest].
  cbn [find_session_loop] in Hfind.
  pose proof (loop_test_qualifies ty d t x) as Hq.
  destruct (String.eqb (Py.lower (track x)) (Py.lower ty) && String.eqb (date x) d)
    eqn:Htest.
  - destruct (Py.str_gt (start x) t) eqn:Hgt.
    + injection Hfind as <-. constructor; [intros _; apply leb_refl|].
      destruct (proj1 Hq (conj eq_refl eq_refl)) as (Htrack & Hdate & _).
      eapply Forall_impl; [exact Hhead|].
      intros y Hxy (Hytrack & Hydate & _). apply Hxy; congruence.
    + constructor; [|by apply IH].
      intros Hx. apply Hq in Hx as [_ Hx]. congruence.
  - constructor; [|by apply IH].
    intros Hx. apply Hq in Hx as [Hx _]. congruence.
Qed.

(** X7: on a ranked agenda the session [find_session] returns is the
    earliest one that qualifies: no qualifying session starts before it. *)
Theorem find_session_earliest (session_type : option string) (d t : string)
    (sessions : list Session) (s : Session) :
  ranked sessions →
  find_session session_type d t sessions = Some s →
  Forall (fun y => ∀ ty, session_type = Some ty → qualifies ty d t y →
                         String.leb (start s) (start y) = true)
    sessions.
Proof.
  intros Hranked Hfind. unfold find_session in Hfind.
  destruct (Py.truthy session_type); [|discriminate].
  destruct session_type as [ty|]; [|discriminate].
  eapply Forall_impl; [by apply (find_session_loop_earliest ty d t sessions s)|].
  intros y Hy ty' [= <-]. exact Hy.
Qed.

Lemma find_session_loop_qualifies ty d t sessions s :
  find_session_loop ty d t sessions = Some s →
  s ∈ sessions ∧ qualifies ty d t s.
Proof.
  rewrite find_session_loop_list_find.
  intros ([i x] & Hfind & Hx)%fmap_Some. simpl in Hx. subst x.
  apply (list_find_Some _) in Hfind as (Hi & Hq & _).
  split; [by eapply list_elem_of_lookup_2|done].
Qed.

Lemma build_options_app d t sessions types more :
  build_options d t sessions (types ++ more)
  = build_options d t sessions types ++ build_options d t sessions more.
Proof.
  induction types as [|ty rest IH]; [reflexivity|].
  cbn [app build_options]. rewrite IH.
  by destruct (find_session (Some ty) d t sessions).
Qed.

(** X8: the buttons of [build_options] are offers of sessions of the
    agenda: the values are a sublist of the type list, every button shows
    the track and start of a session that qualifies for its type, and the
    buttons for a concatenation of type lists are those of the parts, in
    order. *)
Theorem build_options_buttons (d t : string) (sessions : list Session)
    (type_set more : list string) :
  value <$> build_options d t sessions type_set `sublist_of` type_set
  ∧ Forall (fun b => ∃ s, s ∈ sessions ∧ qualifies (value b) d t s
                          ∧ text b = track s +:+ " at " +:+ start s)
      (build_options d t sessions type_set)
  ∧ build_options d t sessions (type_set ++ more)
    = build_options d t sessions type_set ++ build_options d t sessions more.
Proof.
  split_and!; [| |apply build_options_app].
  - induction type_set as [|ty rest IH]; [constructor|].
    cbn [build_options].
    destruct (find_session (Some ty) d t sessions).
    + cbn. by apply sublist_skip.
    + by apply sublist_cons.
  - induction type_set as [|ty rest IH]; [constructor|].
    cbn [build_options].
    destruct (find_session (Some ty) d t sessions) as [s|] eqn:Hfind; [|done].
    constructor; [|done]. exists s. cbn [value text].
    unfold find_session in Hfind.
    destruct (Py.truthy (Some ty)); [|discriminate].
    apply find_session_loop_qualifies in Hfind as [Hin Hq]. done.
Qed.

(** ** Validator *)

Lemma type_violation_None st ts :
  type_violation st ts = None ↔ type_ok st ts.
Proof.
  unfold type_violation, type_ok. destruct st as [ty|]; [|done].
  destruct (decide (Py.lower ty ∈ ts)) as [Hin|Hout].
  - by rewrite bool_decide_eq_true_2.
  - by rewrite bool_decide_eq_false_2.
Qed.

Lemma type_violation_Some st ts v :
  type_violation st ts = Some v →
  ∃ ty, st = Some ty ∧ v = invalid_verdict "SessionType" (Some (unknown_track_message ty)).
Proof.
  unfold type_violation. destruct st as [ty|]; [|done].
  destruct (negb _); [|done]. intros [= <-]. by exists ty.
Qed.

Lemma time_violation_cases tm :
  match time_violation tm with
  | Ok None => time_ok tm
  | Ok (Some v) =>
      ¬ time_ok tm
      ∧ ∃ t, tm = Some t
             ∧ (v = invalid_verdict "SessionTime" None
                ∨ v = invalid_verdict "SessionTime" (Some business_hours_message))
  | Raise e =>
      e = ValueError
      ∧ ∃ t, tm = Some t ∧ String.length t = 5 ∧ length (Py.split ":" t) ≠ 2
  end.
Proof.
  destruct tm as [t|]; [|done].
  destruct (decide (String.length t = 5)) as [Hlen|Hlen].
  - destruct (Py.split ":" t) as [|h [|m [|x rest]]] eqn:Hsplit.
    + unfold time_violation. rewrite Hlen, Hsplit. cbn [Nat.eqb negb].
      (split; [done|]; exists t; rewrite Hsplit; split_and!; [done|done|cbn; lia]).
    + unfold time_violation. rewrite Hlen, Hsplit. cbn [Nat.eqb negb].
      (split; [done|]; exists t; rewrite Hsplit; split_and!; [done|done|cbn; lia]).
    + rewrite (time_violation_two_parts _ _ _ Hlen Hsplit).
      destruct (Py.int h) as [hv|] eqn:Hh.
      * destruct (Py.int m) as [mv|] eqn:Hm.
        -- destruct (decide (8 ≤ hv ≤ 17)%Z) as [Hin|Hout].
           ++ split; [done|]. by exists h, m, hv, mv.
           ++ split; [|eauto].
              intros (_ & h' & m' & hv' & mv' & Hs & Hh' & _ & Hr).
              rewrite Hsplit in Hs. simplify_eq. done.
        -- split; [|eauto].
           intros (_ & h' & m' & hv' & mv' & Hs & _ & Hm' & _).
           rewrite Hsplit in Hs. simplify_eq.
      * split; [|eauto].
        intros (_ & h' & m' & hv' & mv' & Hs & Hh' & _).
        rewrite Hsplit in Hs. simplify_eq.
    + unfold time_violation. rewrite Hlen, Hsplit. cbn [Nat.eqb negb].
      (split; [done|]; exists t; rewrite Hsplit; split_and!; [done|done|cbn; lia]).
  - rewrite (time_violation_wrong_length _ Hlen). split; [|eauto].
    by intros [? _].
Qed.

Section ValidatorFurther.

Variable dateutil_parse : string -> result datetime.

Lemma date_violation_cases sd :
  match date_violation dateutil_parse sd with
  | Ok None => date_ok dateutil_parse sd
  | Ok (Some v) =>
      ¬ date_ok dateutil_parse sd
      ∧ ∃ d, sd = Some d
             ∧ (v = invalid_verdict "SessionDate" (Some date_reprompt_message)
                ∨ v = invalid_verdict "SessionDate" (Some single_date_message))
  | Raise e => e ≠ ValueError ∧ ∃ d, sd = Some d ∧ dateutil_parse d = Raise e
  end.
Proof.
  destruct sd as [d|]; [|done].
  destruct (dateutil_parse d) as [dt|e] eqn:Hp.
  - rewrite (date_violation_parsed _ _ _ Hp).
    destruct (decide (dt_date dt = conference_date)) as [Heq|Hne].
    + by exists dt.
    + split; [|eauto]. intros (dt' & Hp' & Hd). congruence.
  - destruct e;
      try (unfold date_violation, isvalid_date; rewrite Hp; cbn [res_bind];
           split; [done|by eauto]).
    rewrite (date_violation_unparsable _ _ Hp). split; [|eauto].
    intros (dt' & Hp' & _). congruence.
Qed.

(** X9: the validator accepts exactly when each supplied slot passes its
    own check: the lower-cased track is an allowed one, the date parses to
    2017-11-08, and the time is five characters that split at the colon
    into two integers with the hour in [8,17]; an absent slot passes. *)
Theorem validate_accepts_iff (session_type session_date session_time : option string)
    (type_set : list string) :
  validate_conference_booking dateutil_parse session_type session_date session_time
    type_set
  = Ok (mk_validation true None None)
  ↔ type_ok session_type type_set
    ∧ date_ok dateutil_parse session_date
    ∧ time_ok session_time.
Proof.
  unfold validate_conference_booking.
  pose proof (type_violation_None session_type type_set) as Hty.
  pose proof (date_violation_cases session_date) as Hd.
  pose proof (time_violation_cases session_time) as Htm.
  destruct (type_violation session_type type_set) as [v|] eqn:Etype.
  { apply type_violation_Some in Etype as (ty & -> & ->).
    split; [discriminate|]. intros [Hok _]. apply Hty in Hok. discriminate. }
  destruct (date_violation dateutil_parse session_date) as [[v|]|e]; cbn [res_bind].
  - destruct Hd as [Hno (d & -> & [-> | ->])];
      (split; [discriminate|]; intros (_ & Hok & _); done).
  - destruct (time_violation session_time) as [[v|]|e]; cbn [res_bind].
    + destruct Htm as [Hno (t & -> & [-> | ->])];
        (split; [discriminate|]; intros (_ & _ & Hok); done).
    + split; [|done]. intros _. split_and!; [by apply Hty|done|done].
    + split; [discriminate|]. intros (_ & _ & Hok).
      destruct Htm as (_ & t & -> & Hlen & Hparts).
      destruct Hok as (_ & h & m & hv & mv & Hs & _). by rewrite Hs in Hparts.
  - split; [discriminate|]. intros (_ & Hok & _).
    destruct Hd as (Hne & d & -> & Hp). destruct Hok as (dt & Hp' & _). congruence.
Qed.

(** X10: the shape of every verdict and the only ways the validator
    raises. A valid verdict names no slot and has no message; an invalid one
    names [SessionType], [SessionDate] or [SessionTime], always a slot that
    was supplied, carries a ['PlainText'] message or, for [SessionTime]
    only, none. The validator raises [ValueError] on a five-character time
    that does not split into two parts, and otherwise only what the date
    parser raises besides [ValueError]. *)
Theorem verdict_shape (session_type session_date session_time : option string)
    (type_set : list string) :
  match validate_conference_booking dateutil_parse session_type session_date
          session_time type_set with
  | Ok v =>
      if isValid v then violatedSlot v = None ∧ message v = None
      else ∃ k, violatedSlot v = Some k
                ∧ (k = "SessionType" ∧ is_Some session_type
                   ∨ k = "SessionDate" ∧ is_Some session_date
                   ∨ k = "SessionTime" ∧ is_Some session_time)
                ∧ (message v = None → k = "SessionTime")
                ∧ (∀ m, message v = Some m → contentType m = "PlainText")
  | Raise e =>
      (e = ValueError
       ∧ ∃ t, session_time = Some t ∧ String.length t = 5
              ∧ length (Py.split ":" t) ≠ 2)
      ∨ (e ≠ ValueError ∧ ∃ d, session_date = Some d ∧ dateutil_parse d = Raise e)
  end.
Proof.
  unfold validate_conference_booking.
  pose proof (date_violation_cases session_date) as Hd.
  pose proof (time_violation_cases session_time) as Htm.
  destruct (type_violation session_type type_set) as [v|] eqn:Etype.
  { apply type_violation_Some in Etype as (ty & -> & ->). cbn.
    exists "SessionType". split_and!; [done|eauto|done|by intros m [= <-]]. }
  destruct (date_violation dateutil_parse session_date) as [[v|]|e]; cbn [res_bind].
  - destruct Hd as [_ (d & -> & [-> | ->])]; cbn;
      (exists "SessionDate"; split_and!; [done|eauto 6|done|by intros m [= <-]]).
  - destruct (time_violation session_time) as [[v|]|e]; cbn [res_bind].
    + destruct Htm as [_ (t & -> & [-> | ->])]; cbn;
        (exists "SessionTime"; split_and!; [done|eauto 6|done|by intros m [= <-]]).
    + done.
    + left. destruct Htm as (-> & Hrest). done.
  - right. done.
Qed.

End ValidatorFurther.

(** ** Dialog controller, router and entry point *)

Section ControllerFurther.

Variable dateutil_parse : string -> result datetime.

(** The slot an invalid verdict names was supplied. *)
Lemma violated_slot_supplied st sd tm ts v k :
  validate_conference_booking dateutil_parse st sd tm ts = Ok v →
  violatedSlot v = Some k →
  k = "SessionType" ∧ is_Some st
  ∨ k = "SessionDate" ∧ is_Some sd
  ∨ k = "SessionTime" ∧ is_Some tm.
Proof.
  unfold validate_conference_booking.
  pose proof (date_violation_cases dateutil_parse sd) as Hd.
  pose proof (time_violation_cases tm) as Htm.
  destruct (type_violation st ts) as [v0|] eqn:Etype.
  { apply type_violation_Some in Etype as (ty & -> & ->).
    intros [= <-] [= <-]. eauto. }
  destruct (date_violation dateutil_parse sd) as [[v0|]|e]; cbn [res_bind];
    [| |discriminate].
  - destruct Hd as [_ (d & -> & [-> | ->])]; intros [= <-] [= <-]; eauto.
  - destruct (time_violation tm) as [[v0|]|e]; cbn [res_bind]; [| |discriminate].
    + destruct Htm as [_ (t & -> & [-> | ->])]; intros [= <-] [= <-]; eauto.
    + by intros [= <-].
Qed.

Lemma validation_failure_inv req k :
  validation_failure dateutil_parse req = Some k →
  ∃ ty d tm v,
    slots (currentIntent req) !! "SessionType" = Some ty
    ∧ slots (currentIntent req) !! "SessionDate" = Some d
    ∧ slots (currentIntent req) !! "SessionTime" = Some tm
    ∧ invocationSource req = "DialogCodeHook"
    ∧ validate_conference_booking dateutil_parse ty d tm session_types = Ok v
    ∧ isValid v = false
    ∧ violatedSlot v = Some k.
Proof.
  unfold validation_failure.
  destruct (String.eqb (invocationSource req) "DialogCodeHook") eqn:Hsrc; [|done].
  apply String.eqb_eq in Hsrc.
  destruct (slots (currentIntent req) !! "SessionType") as [ty|]; [|done].
  destruct (slots (currentIntent req) !! "SessionDate") as [d|]; [|done].
  destruct (slots (currentIntent req) !! "SessionTime") as [tm|]; [|done].
  destruct (validate_conference_booking dateutil_parse ty d tm session_types)
    as [v|e] eqn:Hv; [|done].
  destruct (isValid v) eqn:Hval; [done|].
  intros Hk. by exists ty, d, tm, v.
Qed.

(** The request [book_session] leaves behind. *)
Lemma final_request req :
  snd (book_session dateutil_parse req)
  = match validation_failure dateutil_parse req with
    | Some k => with_slots (<[k := None]> (slots (currentIntent req))) req
    | None => req
    end.
Proof.
  destruct (validation_failure dateutil_parse req) as [k|] eqn:Hvf.
  { apply validation_failure_inv in Hvf
      as (ty & d & tm & v & Hty & Hd & Htm & Hsrc & Hv & Hval & Hk).
    by rewrite (rejected_turn _ req ty d tm v k). }
  unfold validation_failure in Hvf.
  destruct (slots (currentIntent req) !! "SessionType") as [ty|] eqn:Hty; cycle 1.
  { run_monad. by rewrite Hty. }
  destruct (slots (currentIntent req) !! "SessionDate") as [d|] eqn:Hd; cycle 1.
  { run_monad. by rewrite Hty, Hd. }
  destruct (slots (currentIntent req) !! "SessionTime") as [tm|] eqn:Htm; cycle 1.
  { run_monad. by rewrite Hty, Hd, Htm. }
  destruct (String.eqb (invocationSource req) "DialogCodeHook") eqn:Hsrc.
  - apply String.eqb_eq in Hsrc.
    destruct (validate_conference_booking dateutil_parse ty d tm session_types)
      as [v|e] eqn:Hv.
    + destruct (isValid v) eqn:Hval.
      * by rewrite (accepted_turn _ req ty d tm v).
      * destruct (invalid_verdict_names_slot _ _ _ _ _ _ Hv Hval) as [k Hk].
        congruence.
    + run_monad. by rewrite Hty, Hd, Htm, Hsrc, Hv.
  - by rewrite (fulfillment_turn _ req ty d tm).
Qed.

(** X11: when one of the three slot keys is missing from the slot
    dictionary, [book_session] raises [KeyError] on every turn, the
    fulfillment turn included, and leaves the request as it was. *)
Theorem missing_slot_key_raises (req : IntentRequest) :
  slots (currentIntent req) !! "SessionType" = None
  ∨ slots (currentIntent req) !! "SessionDate" = None
  ∨ slots (currentIntent req) !! "SessionTime" = None →
  book_session dateutil_parse req = (Raise KeyError, req).
Proof.
  intros Hmissing. run_monad.
  destruct (slots (currentIntent req) !! "SessionType") as [ty|]; [|done].
  destruct (slots (currentIntent req) !! "SessionDate") as [d|]; [|done].
  destruct (slots (currentIntent req) !! "SessionTime") as [tm|]; [|done].
  by destruct Hmissing as [?|[?|?]].
Qed.

(** X12: on a dialogue turn whose slots the validator accepts,
    [book_session] hands the request's slots back with [Delegate] whenever
    the date or the time is missing or empty, and also when all three slots
    are filled and the confirmation status is not ['None']. *)
Theorem delegate_turn (req : IntentRequest) (ty d tm : option string)
    (v : ValidationResult) :
  slots (currentIntent req) !! "SessionType" = Some ty →
  slots (currentIntent req) !! "SessionDate" = Some d →
  slots (currentIntent req) !! "SessionTime" = Some tm →
  invocationSource req = "DialogCodeHook" →
  validate_conference_booking dateutil_parse ty d tm session_types = Ok v →
  isValid v = true →
  Py.truthy d && Py.truthy tm = false
  ∨ (Py.truthy ty = true ∧ confirmationStatus (currentIntent req) ≠ "None") →
  book_session dateutil_parse req
  = (Ok (mk_response (Some (default ∅ (sessionAttributes req)))
           (Delegate (slots (currentIntent req)))),
     req).
Proof.
  intros Hty Hd Htm Hsrc Hv Hval Hcase.
  rewrite (accepted_turn _ req ty d tm v Hty Hd Htm Hsrc Hv Hval).
  destruct Hcase as [Hdt|[Htruthy Hstatus]].
  - by rewrite Hdt.
  - apply String.eqb_neq in Hstatus. rewrite Htruthy, Hstatus.
    by destruct (Py.truthy d && Py.truthy tm).
Qed.

Lemma build_options_values d t sessions types :
  value <$> build_options d t sessions types `sublist_of` types.
Proof.
  induction types as [|ty rest IH]; [constructor|].
  cbn [build_options].
  destruct (find_session (Some ty) d t sessions).
  - cbn. by apply sublist_skip.
  - by apply sublist_cons.
Qed.

(** X13: on a dialogue turn whose slots the validator accepts, with date
    and time filled and no type, [book_session] asks for [SessionType]: the
    type slot is then [None] (an empty string is rejected as an unknown
    track), the request is left as it was, and the card shows every button
    of [build_options], at most three, none cut off. *)
Theorem type_elicitation_turn (req : IntentRequest) (ty d tm : option string)
    (v : ValidationResult) :
  slots (currentIntent req) !! "SessionType" = Some ty →
  slots (currentIntent req) !! "SessionDate" = Some d →
  slots (currentIntent req) !! "SessionTime" = Some tm →
  invocationSource req = "DialogCodeHook" →
  validate_conference_booking dateutil_parse ty d tm session_types = Ok v →
  isValid v = true →
  Py.truthy d = true → Py.truthy tm = true → Py.truthy ty = false →
  ty = None
  ∧ length (build_options (str_of d) (str_of tm) agenda session_types) ≤ 3
  ∧ ∃ digest,
      book_session dateutil_parse req
      = (Ok (mk_response (Some (default ∅ (sessionAttributes req)))
               (ElicitSlot (intentName (currentIntent req))
                  (slots (currentIntent req)) "SessionType"
                  (Some (mk_message "PlainText" digest))
                  (Some (mk_card "application/vnd.amazonaws.card.generic" 1
                           [mk_attachment "Specify Track"
                              "What track would you like to attend?"
                              (Some (build_options (str_of d) (str_of tm) agenda
                                       session_types))])))),
         req).
Proof.
  intros Hty Hd Htm Hsrc Hv Hval Td Ttm Tty.
  assert (length (build_options (str_of d) (str_of tm) agenda session_types) ≤ 3)
    as Hlen.
  { pose proof (sublist_length _ _
      (build_options_values (str_of d) (str_of tm) agenda session_types)) as Hsub.
    by rewrite length_fmap in Hsub. }
  split_and!; [|done|].
  - destruct ty as [[|c r]|]; [|discriminate|done].
    exfalso. revert Hv Hval. unfold validate_conference_booking.
    assert (type_violation (Some "") session_types
            = Some (invalid_verdict "SessionType" (Some (unknown_track_message ""))))
      as -> by reflexivity.
    by intros [= <-].
  - eexists.
    rewrite (accepted_turn _ req ty d tm v Hty Hd Htm Hsrc Hv Hval).
    rewrite Td, Ttm, Tty. cbn [andb negb]. unfold build_response_card.
    rewrite take_min_length, take_ge by lia. reflexivity.
Qed.

(** X14: which session attributes a response carries. The [Close] of a
    fulfillment turn and the re-prompt for a rejected slot pass the
    request's attributes on as they are, [None] included; every other
    response carries a dictionary, the empty one when the request had
    none. *)
Theorem response_attributes (req : IntentRequest) :
  match fst (book_session dateutil_parse req) with
  | Ok r =>
      out_sessionAttributes r
      = if String.eqb (invocationSource req) "DialogCodeHook" then
          match validation_failure dateutil_parse req with
          | Some _ => sessionAttributes req
          | None => Some (default ∅ (sessionAttributes req))
          end
        else sessionAttributes req
  | Raise _ => True
  end.
Proof.
  unfold validation_failure.
  destruct (slots (currentIntent req) !! "SessionType") as [ty|] eqn:Hty; cycle 1.
  { run_monad. by rewrite Hty. }
  destruct (slots (currentIntent req) !! "SessionDate") as [d|] eqn:Hd; cycle 1.
  { run_monad. by rewrite Hty, Hd. }
  destruct (slots (currentIntent req) !! "SessionTime") as [tm|] eqn:Htm; cycle 1.
  { run_monad. by rewrite Hty, Hd, Htm. }
  destruct (String.eqb (invocationSource req) "DialogCodeHook") eqn:Hsrc.
  - apply String.eqb_eq in Hsrc.
    destruct (validate_conference_booking dateutil_parse ty d tm session_types)
      as [v|e] eqn:Hv.
    + destruct (isValid v) eqn:Hval.
      * rewrite (accepted_turn _ req ty d tm v) by done. cbn [fst].
        destruct (Py.truthy d && Py.truthy tm && negb (Py.truthy ty)); [done|].
        destruct (Py.truthy d && Py.truthy tm && Py.truthy ty && _); [|done].
        by destruct (find_session ty (str_of d) (str_of tm) agenda).
      * destruct (invalid_verdict_names_slot _ _ _ _ _ _ Hv Hval) as [k Hk].
        rewrite (rejected_turn _ req ty d tm v k) by done. cbn [fst].
        rewrite Hk. by destruct (message v).
    + run_monad. by rewrite Hty, Hd, Htm, (proj2 (String.eqb_eq _ _) Hsrc), Hv.
  - by rewrite (fulfillment_turn _ req ty d tm).
Qed.

(** X15: exactly when [book_session] raises. [KeyError] for a missing slot
    key, on any turn; on a dialogue turn, whatever the validator raises,
    [KeyError] when the validator rejects a slot without a message, and
    [TypeError] when the three slots are filled and accepted, the
    confirmation status is ['None'] and no session matches. Nothing else
    makes it raise. *)
Theorem book_session_raises_iff (req : IntentRequest) (e : exn) :
  fst (book_session dateutil_parse req) = Raise e
  ↔ (e = KeyError
     ∧ (slots (currentIntent req) !! "SessionType" = None
        ∨ slots (currentIntent req) !! "SessionDate" = None
        ∨ slots (currentIntent req) !! "SessionTime" = None))
    ∨ ∃ ty d tm,
        slots (currentIntent req) !! "SessionType" = Some ty
        ∧ slots (currentIntent req) !! "SessionDate" = Some d
        ∧ slots (currentIntent req) !! "SessionTime" = Some tm
        ∧ invocationSource req = "DialogCodeHook"
        ∧ (validate_conference_booking dateutil_parse ty d tm session_types = Raise e
           ∨ (e = KeyError
              ∧ ∃ v, validate_conference_booking dateutil_parse ty d tm session_types
                     = Ok v
                     ∧ isValid v = false ∧ message v = None)
           ∨ (e = TypeError
              ∧ ∃ v, validate_conference_booking dateutil_parse ty d tm session_types
                     = Ok v
                     ∧ isValid v = true
                     ∧ Py.truthy ty = true ∧ Py.truthy d = true ∧ Py.truthy tm = true
                     ∧ confirmationStatus (currentIntent req) = "None"
                     ∧ find_session ty (str_of d) (str_of tm) agenda = None)).
Proof.
  split.
  - destruct (slots (currentIntent req) !! "SessionType") as [ty|] eqn:Hty; cycle 1.
    { run_monad. rewrite Hty. cbn [fst]. intros [= <-]. left. eauto. }
    destruct (slots (currentIntent req) !! "SessionDate") as [d|] eqn:Hd; cycle 1.
    { run_monad. rewrite Hty, Hd. cbn [fst]. intros [= <-]. left. eauto. }
    destruct (slots (currentIntent req) !! "SessionTime") as [tm|] eqn:Htm; cycle 1.
    { run_monad. rewrite Hty, Hd, Htm. cbn [fst]. intros [= <-]. left. eauto. }
    destruct (String.eqb (invocationSource req) "DialogCodeHook") eqn:Hsrc; cycle 1.
    { by rewrite (fulfillment_turn _ req ty d tm). }
    apply String.eqb_eq in Hsrc. intros Hraise.
    right. exists ty, d, tm. split_and!; [done..|].
    destruct (validate_conference_booking dateutil_parse ty d tm session_types)
      as [v|e0] eqn:Hv.
    + destruct (isValid v) eqn:Hval.
      * rewrite (accepted_turn _ req ty d tm v) in Hraise by done. cbn [fst] in Hraise.
        destruct (Py.truthy d && Py.truthy tm && negb (Py.truthy ty));
          [discriminate|].
        destruct (Py.truthy d && Py.truthy tm && Py.truthy ty && _) eqn:Hall;
          [|discriminate].
        destruct (find_session ty (str_of d) (str_of tm) agenda) eqn:Hfind;
          [discriminate|].
        injection Hraise as <-. right. right. split; [done|]. exists v.
        apply andb_true_iff in Hall as [Hall Hstatus].
        apply andb_true_iff in Hall as [Hall Tty].
        apply andb_true_iff in Hall as [Td Ttm].
        apply String.eqb_eq in Hstatus. done.
      * destruct (invalid_verdict_names_slot _ _ _ _ _ _ Hv Hval) as [k Hk].
        rewrite (rejected_turn _ req ty d tm v k) in Hraise by done.
        cbn [fst] in Hraise.
        destruct (message v) eqn:Hm; [discriminate|].
        injection Hraise as <-. right. left. split; [done|]. by exists v.
    + left. revert Hraise. run_monad.
      rewrite Hty, Hd, Htm, (proj2 (String.eqb_eq _ _) Hsrc), Hv. cbn [fst].
      by intros [= <-].
  - intros [[-> Hmissing]|(ty & d & tm & Hty & Hd & Htm & Hsrc & Hcase)].
    + run_monad.
      destruct (slots (currentIntent req) !! "SessionType"); [|done].
      destruct (slots (currentIntent req) !! "SessionDate"); [|done].
      destruct (slots (currentIntent req) !! "SessionTime"); [|done].
      by destruct Hmissing as [?|[?|?]].
    + destruct Hcase as [Hv|[(-> & v & Hv & Hval & Hm)
        |(-> & v & Hv & Hval & Tty & Td & Ttm & Hstatus & Hfind)]].
      * run_monad. by rewrite Hty, Hd, Htm, (proj2 (String.eqb_eq _ _) Hsrc), Hv.
      * destruct (invalid_verdict_names_slot _ _ _ _ _ _ Hv Hval) as [k Hk].
        rewrite (rejected_turn _ req ty d tm v k) by done. cbn [fst].
        by rewrite Hm.
      * rewrite (accepted_turn _ req ty d tm v) by done. cbn [fst].
        rewrite Tty, Td, Ttm, Hstatus, Hfind. reflexivity.
Qed.

(** What a rejected turn does to the slot dictionary. *)
Lemma rejected_slots req k :
  validation_failure dateutil_parse req = Some k →
  k ∈ ["SessionType"; "SessionDate"; "SessionTime"]
  ∧ (∃ x, slots (currentIntent req) !! k = Some (Some x))
  ∧ slots (currentIntent (after_turn dateutil_parse req))
    = <[k := None]> (slots (currentIntent req))
  ∧ invocationSource (after_turn dateutil_parse req) = invocationSource req.
Proof.
  intros Hvf. unfold after_turn. rewrite final_request, Hvf.
  apply validation_failure_inv in Hvf
    as (ty & d & tm & v & Hty & Hd & Htm & Hsrc & Hv & Hval & Hk).
  split_and!; [| |done|done];
    destruct (violated_slot_supplied _ _ _ _ _ _ Hv Hk)
      as [[-> [x ->]]|[[-> [x ->]]|[-> [x ->]]]];
    first [set_solver | by eexists].
Qed.

(** X16: a rejected turn makes progress. The rejected slot held a value;
    afterwards it reads [None], every other slot reads as before, the
    dictionary has the same keys, and the validator does not reject that
    slot again on the request left behind. *)
Theorem rejection_progress (req : IntentRequest) (k : string) :
  validation_failure dateutil_parse req = Some k →
  (∃ x, slots (currentIntent req) !! k = Some (Some x))
  ∧ slots (currentIntent (after_turn dateutil_parse req)) !! k = Some None
  ∧ (∀ k', k' ≠ k →
       slots (currentIntent (after_turn dateutil_parse req)) !! k'
       = slots (currentIntent req) !! k')
  ∧ dom (slots (currentIntent (after_turn dateutil_parse req)))
    = dom (slots (currentIntent req))
  ∧ validation_failure dateutil_parse (after_turn dateutil_parse req) ≠ Some k.
Proof.
  intros Hvf.
  destruct (rejected_slots req k Hvf) as (Hk & [x Hx] & Hslots & Hsrc).
  split_and!.
  - by exists x.
  - rewrite Hslots. apply lookup_insert_eq.
  - intros k' Hne. rewrite Hslots. by apply lookup_insert_ne.
  - rewrite Hslots. apply dom_insert_lookup_L. by rewrite Hx.
  - intros Hagain.
    destruct (rejected_slots _ k Hagain) as (_ & [y Hy] & _).
    rewrite Hslots, lookup_insert_eq in Hy. discriminate.
Qed.

Lemma accepted_stays req :
  validation_failure dateutil_parse req = None →
  after_turn dateutil_parse req = req.
Proof. intros Hvf. unfold after_turn. by rewrite final_request, Hvf. Qed.

(** X17: re-prompting stops. Whatever the request, after three turns of
    [book_session] on what the previous turn left behind, the validator
    rejects nothing any more: each rejection clears one of three slots. *)
Theorem three_rejections_suffice (req : IntentRequest) :
  validation_failure dateutil_parse
    (after_turn dateutil_parse
       (after_turn dateutil_parse (after_turn dateutil_parse req)))
  = None.
Proof.
  destruct (validation_failure dateutil_parse req) as [k1|] eqn:H1; cycle 1.
  { by rewrite !(accepted_stays req H1). }
  destruct (rejected_slots req k1 H1) as (Hk1 & [x1 Hx1] & Hs1 & _).
  set (r1 := after_turn dateutil_parse req) in *.
  destruct (validation_failure dateutil_parse r1) as [k2|] eqn:H2; cycle 1.
  { by rewrite !(accepted_stays r1 H2). }
  destruct (rejected_slots r1 k2 H2) as (Hk2 & [x2 Hx2] & Hs2 & _).
  set (r2 := after_turn dateutil_parse r1) in *.
  destruct (validation_failure dateutil_parse r2) as [k3|] eqn:H3; cycle 1.
  { by rewrite !(accepted_stays r2 H3). }
  destruct (rejected_slots r2 k3 H3) as (Hk3 & [x3 Hx3] & Hs3 & _).
  set (r3 := after_turn dateutil_parse r2) in *.
  destruct (validation_failure dateutil_parse r3) as [k4|] eqn:H4; [|done].
  destruct (rejected_slots r3 k4 H4) as (Hk4 & [x4 Hx4] & _).
  exfalso. rewrite Hs3 in Hx4. rewrite Hs2 in Hx3, Hx4. rewrite Hs1 in Hx2, Hx3, Hx4.
  clear -Hk1 Hk2 Hk3 Hk4 Hx2 Hx3 Hx4.
  repeat match goal with
         | H : _ ∈ _ :: _ |- _ => apply elem_of_cons in H as [->|H]
         | H : _ ∈ [] |- _ => by apply elem_of_nil in H
         end;
    simplify_map_eq.
Qed.

(** X18: the router and the entry point around [book_session]. The entry
    point sets [TZ] and touches no other variable, whatever happens next;
    without a bot name it raises [KeyError], and for another intent than
    ['CheckConferenceAgenda'] the router raises its own exception, both
    leaving the request as it was; otherwise outcome and request are those
    of [book_session]. *)
Theorem entry_point_routes (event : Event) (environ : Environ) :
  snd (lambda_handler dateutil_parse event environ) !! "TZ" = Some "America/New_York"
  ∧ (∀ k, k ≠ "TZ" →
       snd (lambda_handler dateutil_parse event environ) !! k = environ !! k)
  ∧ fst (lambda_handler dateutil_parse event environ)
    = match bot event ≫= (fun b => b !! "name") with
      | None => (Raised KeyError, event_request event)
      | Some _ =>
          if String.eqb (intentName (currentIntent (event_request event)))
               "CheckConferenceAgenda"
          then (of_result (fst (book_session dateutil_parse (event_request event))),
                after_turn dateutil_parse (event_request event))
          else (RaisedException
                  ("Intent with name "
                   +:+ intentName (currentIntent (event_request event))
                   +:+ " not supported"),
                event_request event)
      end.
Proof.
  unfold lambda_handler, dispatch, after_turn.
  destruct (bot event ≫= _) as [n|].
  - destruct (String.eqb _ _).
    + destruct (book_session dateutil_parse (event_request event)) as [r st].
      cbn [fst snd]. split_and!; [apply lookup_insert_eq| |done].
      intros k Hk. by apply lookup_insert_ne.
    + cbn [fst snd]. split_and!; [apply lookup_insert_eq| |done].
      intros k Hk. by apply lookup_insert_ne.
  - cbn [fst snd]. split_and!; [apply lookup_insert_eq| |done].
    intros k Hk. by apply lookup_insert_ne.
Qed.

End ControllerFurther.

(** ** Instances *)

(** The agenda of [book_session] is ranked. *)
Lemma agenda_ranked : ranked agenda.
Proof. unfold ranked. apply (bool_decide_unpack _). vm_compute. exact I. Qed.

(** [track_case_insensitive] on two spellings of one track. *)
Lemma track_case_insensitive_witness :
  Py.lower "Tech Specific" = Py.lower "TECH specific"
  ∧ find_session (Some "Tech Specific") "2017-11-08" "11:45" agenda
    = find_session (Some "TECH specific") "2017-11-08" "11:45" agenda.
Proof.
  split; [reflexivity|].
  refine (proj1 (track_case_insensitive "Tech Specific" "TECH specific" "2017-11-08"
                   "11:45" agenda session_types _)).
  reflexivity.
Defined.

(** [find_session_earliest] on the agenda of [book_session]. *)
Lemma find_session_earliest_witness :
  Forall (fun y => ∀ ty, Some "Tech Specific" = Some ty →
                         qualifies ty "2017-11-08" "11:45" y →
                         String.leb "12:00" (start y) = true)
    agenda.
Proof.
  apply (find_session_earliest (Some "Tech Specific") "2017-11-08" "11:45" agenda
           (mk_session "Browser Peer to Peer Connections for Fun and Profit"
              "Tech Specific" "2017-11-08" "12:00" "12:30"));
    [exact agenda_ranked | vm_compute; reflexivity].
Defined.

(** [missing_slot_key_raises] on a fulfillment turn without the time key. *)
Lemma missing_slot_key_raises_witness :
  book_session sample_parse
    (mk_request
       (mk_intent "CheckConferenceAgenda"
          (<["SessionType" := None]> (<["SessionDate" := None]> ∅)) "None")
       None "FulfillmentCodeHook" "user")
  = (Raise KeyError,
     mk_request
       (mk_intent "CheckConferenceAgenda"
          (<["SessionType" := None]> (<["SessionDate" := None]> ∅)) "None")
       None "FulfillmentCodeHook" "user").
Proof.
  apply (missing_slot_key_raises sample_parse).
  right. right. reflexivity.
Defined.

(** [delegate_turn] on a turn with only the date filled. *)
Lemma delegate_turn_witness :
  book_session sample_parse
    (request_with None (Some "2017-11-08") None "None" "DialogCodeHook" None)
  = (Ok (mk_response (Some ∅)
           (Delegate (<["SessionType" := None]>
                        (<["SessionDate" := Some "2017-11-08"]>
                           (<["SessionTime" := None]> ∅))))),
     request_with None (Some "2017-11-08") None "None" "DialogCodeHook" None).
Proof.
  apply (delegate_turn sample_parse
           (request_with None (Some "2017-11-08") None "None" "DialogCodeHook" None)
           None (Some "2017-11-08") None valid_verdict);
    first [reflexivity | left; reflexivity].
Defined.

(** [type_elicitation_turn] on a turn with date and time filled. *)
Lemma type_elicitation_turn_witness :
  length (build_options "2017-11-08" "10:15" agenda session_types) ≤ 3.
Proof.
  refine (proj1 (proj2 (type_elicitation_turn sample_parse
           (request_with None (Some "2017-11-08") (Some "10:15") "None"
              "DialogCodeHook" None)
           None (Some "2017-11-08") (Some "10:15") valid_verdict
           _ _ _ _ _ _ _ _ _)));
    reflexivity.
Defined.

(** [rejection_progress] on a turn with an unknown track. *)
Lemma rejection_progress_witness :
  validation_failure sample_parse
    (request_with (Some "Cooking") None None "None" "DialogCodeHook" None)
  = Some "SessionType"
  ∧ slots (currentIntent
             (after_turn sample_parse
                (request_with (Some "Cooking") None None "None" "DialogCodeHook"
                   None)))
    !! "SessionType"
    = Some None.
Proof.
  split; [reflexivity|].
  refine (proj1 (proj2 (rejection_progress sample_parse
           (request_with (Some "Cooking") None None "None" "DialogCodeHook" None)
           "SessionType" _))).
  reflexivity.
Defined.
